(** * xmind_to_docx: the tree-to-document projection, embedded and verified

    A shallow embedding of [src/xmind_to_docx.py].  Python values loaded
    from [content.json] are a small inductive type, dictionaries keep
    their insertion order, exceptions are explicit results, and the
    [python-docx] document is an append-only list of blocks. *)

From Stdlib Require Import ZArith NArith List Ascii String Lia Bool.
From Stdlib Require Import Floats.SpecFloat.
From stdpp Require Import base option list gmap.

Local Open Scope Z_scope.

(** ** Python strings and bytes *)

(** A Python [str] is a sequence of Unicode code points. *)
Definition pystr : Type := list N.

Definition bytes : Type := list Byte.byte.

(** Keys and literals of the source are ASCII; [py "title"] is the [str]
    with the same characters. *)
Definition py (s : string) : pystr :=
  List.map N_of_ascii (list_ascii_of_string s).

Fixpoint startswith (s prefix : pystr) : bool :=
  match prefix, s with
  | [], _ => true
  | p :: prefix', c :: s' => (p =? c)%N && startswith s' prefix'
  | _ :: _, [] => false
  end.

Definition endswith (s suffix : pystr) : bool :=
  startswith (rev s) (rev suffix).

(** ** Python values *)

#[warnings="-register-all"]
Inductive pyval : Type :=
| PNone
| PBool (b : bool)
| PInt (z : Z)
| PFloat (f : spec_float)
| PStr (s : pystr)
| PList (l : list pyval)
| PDict (d : list (pystr * pyval)).

(** A [PDict] lists the items of the dictionary in insertion order; the
    first binding of a key is the binding. *)
Definition pydict : Type := list (pystr * pyval).

Fixpoint dict_get (d : pydict) (k : pystr) : option pyval :=
  match d with
  | [] => None
  | (k', v) :: d' => if decide (k' = k) then Some v else dict_get d' k
  end.

Definition dict_values (d : pydict) : list pyval := List.map snd d.
Definition dict_keys (d : pydict) : list pystr := List.map fst d.

(** Truth value of a Python object, as [if x:] and [x or y] test it. *)
Definition truthy (v : pyval) : bool :=
  match v with
  | PNone => false
  | PBool b => b
  | PInt z => negb (z =? 0)
  | PFloat (S754_zero _) => false
  | PFloat _ => true
  | PStr s => negb (Nat.eqb (length s) 0)
  | PList l => negb (Nat.eqb (length l) 0)
  | PDict d => negb (Nat.eqb (length d) 0)
  end.

(** [x or y] *)
Definition py_or (x y : pyval) : pyval := if truthy x then x else y.

(** ** Exceptions and results *)

Inductive exn : Type :=
| AttributeError
| TypeError
| KeyError
| IndexError
| ValueError
| BadZipFile
| NotImplementedError
| RuntimeError
| RecursionError
| OtherError.

(** The result of running a piece of the program: a value, a raised
    exception, or [OutOfFuel] when a fuel-bounded recursion was cut. *)
Inductive outcome (A : Type) : Type :=
| Ret (a : A)
| Raise (e : exn)
| OutOfFuel.
Arguments Ret {A} a.
Arguments Raise {A} e.
Arguments OutOfFuel {A}.

Definition bind {A B : Type} (m : outcome A) (k : A -> outcome B) : outcome B :=
  match m with
  | Ret a => k a
  | Raise e => Raise e
  | OutOfFuel => OutOfFuel
  end.

Declare Scope outcome_scope.
Delimit Scope outcome_scope with outcome.
Notation "'let*' x ':=' m 'in' k" := (bind m (fun x => k))
  (at level 10, x name, m at level 100, k at level 200) : outcome_scope.
Local Open Scope outcome_scope.

(** [for x in xs: acc = f(acc, x)], stopping at the first exception. *)
Fixpoint foldM {A B : Type} (f : A -> B -> outcome A) (xs : list B) (acc : A)
  : outcome A :=
  match xs with
  | [] => Ret acc
  | x :: xs' => let* acc' := f acc x in foldM f xs' acc'
  end.

(** [try: m  except Exception: handler] *)
Definition try_except {A : Type} (m : outcome A) (handler : outcome A) : outcome A :=
  match m with
  | Raise _ => handler
  | other => other
  end.

(** ** Attribute access on loaded values *)

(** [v.get(k, default)]: only dictionaries have [get]. *)
Definition py_get (v : pyval) (k : pystr) (dflt : pyval) : outcome pyval :=
  match v with
  | PDict d => Ret (default dflt (dict_get d k))
  | _ => Raise AttributeError
  end.

(** [v.values()] *)
Definition py_values (v : pyval) : outcome (list pyval) :=
  match v with
  | PDict d => Ret (dict_values d)
  | _ => Raise AttributeError
  end.

(** [for x in v]: lists give their elements, strings their characters,
    dictionaries their keys; the other loaded values are not iterable. *)
Definition py_iter (v : pyval) : outcome (list pyval) :=
  match v with
  | PList l => Ret l
  | PStr s => Ret (List.map (fun c => PStr [c]) s)
  | PDict d => Ret (List.map PStr (dict_keys d))
  | _ => Raise TypeError
  end.

(** ** Tree Normalizer: [iter_children] *)

(** The generator is run to its end by [list(iter_children(topic))]; an
    exception raised while it runs surfaces there. *)
Definition iter_children (topic : pyval) : outcome (list pyval) :=
  let* topics := py_get topic (py "topics") (PDict []) in
  let* groups := py_values topics in
  let* grouped :=
    foldM (fun acc group => let* cs := py_iter group in Ret (acc ++ cs)) groups [] in
  let* children := py_get topic (py "children") (PDict []) in
  foldM (fun acc key =>
           let* lst := py_get children key (PList []) in
           let* cs := py_iter lst in
           Ret (acc ++ cs))
        [py "attached"; py "detached"] grouped.

(** ** Title sanitization (the comprehension and [strip] of [add_topic]) *)

(** [ch >= " " or ch in "\t\n\r"] *)
Definition keep_char (ch : N) : bool :=
  ((32 <=? ch) || (ch =? 9) || (ch =? 10) || (ch =? 13))%N.

(** [str.isspace] on one character: the white space of CPython's Unicode
    database. *)
Definition isspace (ch : N) : bool :=
  (((9 <=? ch) && (ch <=? 13)) || ((28 <=? ch) && (ch <=? 32))
   || (ch =? 133) || (ch =? 160) || (ch =? 5760)
   || ((8192 <=? ch) && (ch <=? 8202))
   || (ch =? 8232) || (ch =? 8233) || (ch =? 8239) || (ch =? 8287)
   || (ch =? 12288))%N.

Fixpoint lstrip (s : pystr) : pystr :=
  match s with
  | [] => []
  | c :: s' => if isspace c then lstrip s' else s
  end.

Definition rstrip (s : pystr) : pystr := rev (lstrip (rev s)).

Definition strip (s : pystr) : pystr := rstrip (lstrip s).

(** ["".join(ch for ch in raw_title if ...).strip() or "."] *)
Definition sanitize_title (raw_title : pystr) : pystr :=
  match strip (List.filter keep_char raw_title) with
  | [] => py "."
  | t => t
  end.

(** ** The document sink *)

(** Blocks of the document body, in the order they were appended.  A
    [Heading] at level 0 is the title style; [FieldParagraph] is the
    paragraph carrying a [w:fldSimple] element. *)
Inductive block : Type :=
| Heading (level : Z) (text : pystr)
| Paragraph (text : pystr) (style : option pystr) (left_indent : option Z)
| FieldParagraph (instr : pystr)
| Picture (data : bytes) (width_inch : spec_float).

Record Document : Type := mkDocument {
  core_title : pystr;
  body : list block
}.

Definition append_block (document : Document) (b : block) : Document :=
  {| core_title := core_title document; body := body document ++ [b] |}.

Definition extend_body (document : Document) (bs : list block) : Document :=
  {| core_title := core_title document; body := body document ++ bs |}.

(** [Document()]: the default template has an empty body. *)
Definition new_document : Document := {| core_title := []; body := [] |}.

(** The paragraph [document.add_paragraph()] appends: no text, no style
    of its own, no indent. *)
Definition EMPTY_PARAGRAPH : block := Paragraph [] None None.

Definition EMU_PER_INCH : Z := 914400.

(** [Inches(0.25 * q)] for an integer [q], in English Metric Units:
    [int(0.25 * q * 914400)].  The two float products are exact for every
    [q] a nesting level can reach, so the length is [q * 914400 / 4]. *)
Definition Inches_quarter (q : Z) : Z := Z.quot (q * EMU_PER_INCH) 4.

Definition LIST_BULLET : pystr := py "List Bullet".

(** The binary64 value of [914400.0]. *)
Definition float_emu_per_inch : spec_float :=
  S754_finite false 7854636190924800 (-33).

(** [Inches(w)] is [int(w * 914400)]: it raises on a product that is
    not a number or is infinite. *)
Definition Inches_fails (w : spec_float) : bool :=
  match SFmul 53 1024 w float_emu_per_inch with
  | S754_nan | S754_infinity _ => true
  | _ => false
  end.

(** The resource mapping: archive path to content. *)
Abbreviation assets_map := (gmap pystr bytes).

(** ** What the program takes from its libraries

    The standard library and [python-docx] are not part of the
    repository; the projection is verified for every behaviour of these
    operations.  For [json_loads] and [imghdr_what], [None] stands for a
    raised exception: both are called inside a [try] whose handler
    catches every [Exception].  The sink's refusals are booleans; what
    the program does with each is in the definitions below: a refused
    indent or picture is swallowed, a refused text or core title leaves
    [main] as a [ValueError]. *)
Class Externals : Type := {
  (** [str(v)] for a value that is not a [str] *)
  py_repr : pyval -> pystr;
  (** [json.loads(data)] *)
  json_loads : bytes -> option pyval;
  (** [imghdr.what(None, h=data)] *)
  imghdr_what : bytes -> option (option pystr);
  (** does [p.paragraph_format.left_indent = emu] succeed? *)
  left_indent_accepted : Z -> bool;
  (** does [document.add_picture(BytesIO(data), width=Inches(w))]
      succeed? *)
  picture_accepted : bytes -> spec_float -> bool;
  (** does the sink take this text for a heading or a paragraph?  The
      text is written through [lxml], which raises [ValueError] on what
      XML cannot hold (U+FFFE, U+FFFF, lone surrogates). *)
  text_accepted : pystr -> bool;
  (** does [document.core_properties.title = t] succeed?  The setter
      raises [ValueError] beyond 255 characters and on what XML cannot
      hold. *)
  core_title_accepted : pystr -> bool;
  (** has the interpreter stack left for a call of [add_topic] at this
      level and for what that call calls?  [main] enters at level 1 and
      every nested call is one level and one frame deeper, so the level
      tells the depth of the stack. *)
  stack_left : Z -> bool
}.

Definition lift_ext {A : Type} (o : option A) : outcome A :=
  match o with
  | Some a => Ret a
  | None => Raise OtherError
  end.

(** Size of a loaded value: the measure along which the projection
    descends. *)
Fixpoint pyval_size (v : pyval) : nat :=
  match v with
  | PList l => S (list_sum (List.map pyval_size l))
  | PDict d => S (list_sum (List.map (fun kv => match kv with (_, x) => pyval_size x end) d))
  | _ => 1%nat
  end.

(** ** Document Projector: [add_topic] *)

Section Projector.
Context {ext : Externals}.

(** [str(v)] *)
Definition py_str (v : pyval) : pystr :=
  match v with
  | PStr s => s
  | _ => py_repr v
  end.

(** Lines 99-100: the sanitized title of a topic. *)
Definition topic_title (topic : pyval) : outcome pystr :=
  let* t := py_get topic (py "title") (PStr []) in
  let raw_title := py_str (py_or t (PStr [])) in
  Ret (sanitize_title raw_title).

(** [document.add_heading(text, level)] raises [ValueError] outside 0..9
    and when the text cannot be written. *)
Definition add_heading (document : Document) (text : pystr) (level : Z)
  : outcome Document :=
  if (0 <=? level) && (level <=? 9)
  then
    if text_accepted text
    then Ret (append_block document (Heading level text))
    else Raise ValueError
  else Raise ValueError.

(** The paragraph that [document.add_paragraph(text, style=style)]
    makes; it raises [ValueError] when the text cannot be written. *)
Definition add_paragraph (text : pystr) (style : pystr) : outcome block :=
  if text_accepted text
  then Ret (Paragraph text (Some style) None)
  else Raise ValueError.

(** [p.paragraph_format.left_indent = emu] *)
Definition set_left_indent (p : block) (emu : Z) : outcome block :=
  if left_indent_accepted emu then
    match p with
    | Paragraph text style _ => Ret (Paragraph text style (Some emu))
    | other => Ret other
    end
  else Raise ValueError.

(** Lines 104-112: the heading or the bulleted paragraph of the node. *)
Definition add_text_block (document : Document) (title : pystr) (level : Z)
    (is_leaf : bool) : outcome Document :=
  if (level =? 1) || negb is_leaf then
    let heading_level := Z.min level 9 in
    add_heading document title heading_level
  else
    let* p := add_paragraph title LIST_BULLET in
    let* p := try_except
                (set_left_indent p (Inches_quarter (Z.max (level - 1) 0)))
                (Ret p) in
    Ret (append_block document p).

(** [assets.get(src)]: the key must be hashable; only a [str] can be a
    key of the mapping. *)
Definition assets_get (assets : assets_map) (src : pyval) : outcome (option bytes) :=
  match src with
  | PList _ | PDict _ => Raise TypeError
  | PStr s => Ret (assets !! s)
  | _ => Ret None
  end.

Definition SUPPORTED_KINDS : list pystr := [py "png"; py "jpeg"; py "bmp"; py "gif"].

(** [kind in {"png", "jpeg", "bmp", "gif"}] *)
Definition kind_supported (kind : option pystr) : bool :=
  match kind with
  | Some k => bool_decide (k ∈ SUPPORTED_KINDS)
  | None => false
  end.

(** [document.add_picture(BytesIO(data), width=Inches(img_width_inch))],
    with the document as the statement leaves it and the exception it
    raised, if any.  The width is computed before the call: when
    [Inches] raises nothing is appended.  The call itself first appends
    an empty paragraph and then puts the picture into it: when it
    rejects the picture the empty paragraph stays.  Which exception was
    raised plays no part, the handler catches them all; [ValueError]
    stands for it. *)
Definition add_picture (document : Document) (data : bytes) (img_width_inch : spec_float)
  : Document * option exn :=
  if picture_accepted data img_width_inch
  then (append_block document (Picture data img_width_inch), None)
  else if Inches_fails img_width_inch
  then (document, Some ValueError)
  else (append_block document EMPTY_PARAGRAPH, Some ValueError).

(** Lines 120-129: sniff and embed; the handler is [pass], so the
    projection goes on with the document as the failed statement left
    it. *)
Definition embed_image (document : Document) (data : bytes) (img_width_inch : spec_float)
  : outcome Document :=
  match imghdr_what data with
  | None => Ret document
  | Some kind =>
      if kind_supported kind
      then Ret (fst (add_picture document data img_width_inch))
      else Ret document
  end.

(** Lines 115-129: the picture of the node, if it has one. *)
Definition add_image (document : Document) (topic : pyval) (assets : assets_map)
    (img_width_inch : spec_float) : outcome Document :=
  let* i := py_get topic (py "image") PNone in
  let image := py_or i (PDict []) in
  let* src := py_get image (py "src") PNone in
  if truthy src then
    let* data := assets_get assets src in
    match data with
    | Some data =>
        if Nat.eqb (length data) 0 then Ret document
        else embed_image document data img_width_inch
    | None => Ret document
    end
  else Ret document.

(** [add_topic], with the depth of recursion bounded by [fuel].  A call
    for which the interpreter has no stack left raises [RecursionError]. *)
Fixpoint add_topic_fuel (fuel : nat) (document : Document) (topic : pyval)
    (assets : assets_map) (level : Z) (img_width_inch : spec_float)
  : outcome Document :=
  match fuel with
  | O => OutOfFuel
  | S fuel' =>
      if stack_left level then
        let* title := topic_title topic in
        let* children := iter_children topic in
        let is_leaf := Nat.eqb (length children) 0 in
        let* document := add_text_block document title level is_leaf in
        let* document := add_image document topic assets img_width_inch in
        foldM (fun document child =>
                 add_topic_fuel fuel' document child assets (level + 1) img_width_inch)
              children document
      else Raise RecursionError
  end.

(** [add_topic]: the size of the topic is fuel enough (see
    [add_topic_fuel_stable] below). *)
Definition add_topic (document : Document) (topic : pyval) (assets : assets_map)
    (level : Z) (img_width_inch : spec_float) : outcome Document :=
  add_topic_fuel (pyval_size topic) document topic assets level img_width_inch.

(** ** Table of contents and the construction in [main] *)

(** The instruction of the field: [TOC \o "1-3" \h \z \u]. *)
Definition TOC_INSTR : pystr :=
  py "TOC \o " ++ [34%N] ++ py "1-3" ++ [34%N] ++ py " \h \z \u".

(** [add_toc]: an empty paragraph, then the field appended to it. *)
Definition add_toc (document : Document) : Document :=
  append_block document (FieldParagraph TOC_INSTR).

(** The binary64 value of the literal [0.1]. *)
Definition float_0_1 : spec_float := S754_finite false 7205759403792794 (-56).

(** [max(a, b)] on floats: [b] when [b > a], otherwise [a]. *)
Definition float_max (a b : spec_float) : spec_float :=
  if SFltb a b then b else a.

(** [document.core_properties.title = t] *)
Definition set_core_title (document : Document) (t : pystr) : outcome Document :=
  if core_title_accepted t
  then Ret {| core_title := t; body := body document |}
  else Raise ValueError.

(** Lines 175-179 of [main]: the document built from a parsed root. *)
Definition build_document (no_toc : bool) (img_width : spec_float)
    (root_topic : pyval) (assets : assets_map) : outcome Document :=
  let document := new_document in
  let* t := py_get root_topic (py "title") (PStr (py "XMind")) in
  let* document := set_core_title document (py_str t) in
  let document := if negb no_toc then add_toc document else document in
  add_topic document root_topic assets 1 (float_max img_width float_0_1).

End Projector.

(** ** Archive Reader *)

(** An opened archive: its members in directory order, each with its
    content, or with the exception that reading it raises
    ([BadZipFile] on a bad checksum, [NotImplementedError] on an
    unsupported compression, [RuntimeError] on an encrypted member). *)
Definition ZipFile : Type := list (pystr * (exn + bytes)).

Definition namelist (zf : ZipFile) : list pystr := List.map fst zf.

(** The member a name stands for is the last one recorded under it. *)
Fixpoint getinfo (zf : ZipFile) (name : pystr) : option (exn + bytes) :=
  match zf with
  | [] => None
  | (n, content) :: zf' =>
      match getinfo zf' name with
      | Some later => Some later
      | None => if decide (n = name) then Some content else None
      end
  end.

(** [zf.read(name)] *)
Definition zf_read (zf : ZipFile) (name : pystr) : outcome bytes :=
  match getinfo zf name with
  | None => Raise KeyError
  | Some (inl e) => Raise e
  | Some (inr data) => Ret data
  end.

(** What is at the path given to [zipfile.ZipFile(path, "r")]. *)
Inductive source_file : Type :=
| NotAZip
| Zip (zf : ZipFile).

Definition open_zip (path : source_file) : outcome ZipFile :=
  match path with
  | NotAZip => Raise BadZipFile
  | Zip zf => Ret zf
  end.

Definition RESOURCES : pystr := py "resources/".
Definition XAP : pystr := py "xap:".
Definition CONTENT_JSON : pystr := py "content.json".

Definition extract_resources (zf : ZipFile) : outcome assets_map :=
  foldM (fun (mapping : assets_map) name =>
           if negb (startswith name RESOURCES) then Ret mapping
           else if endswith name (py "/") then Ret mapping
           else
             let* data := zf_read zf name in
             let mapping := <[name := data]> mapping in
             Ret (<[XAP ++ name := data]> mapping))
        (namelist zf) ∅.

(** [doc[0]] *)
Definition py_first (doc : pyval) : outcome pyval :=
  match doc with
  | PList (x :: _) => Ret x
  | PList [] => Raise IndexError
  | PStr (c :: _) => Ret (PStr [c])
  | PStr [] => Raise IndexError
  | PDict _ => Raise KeyError
  | _ => Raise TypeError
  end.

Section ArchiveReader.
Context {ext : Externals}.

(** The pair [(None, {})]. *)
Definition NO_RESULT : pyval * assets_map := (PNone, ∅).

Definition load_from_content_json (path : source_file) : outcome (pyval * assets_map) :=
  try_except
    (let* zf := open_zip path in
     let names := namelist zf in
     let candidates := List.filter (fun n => endswith n CONTENT_JSON) names in
     match candidates with
     | [] => Ret NO_RESULT
     | first :: _ =>
         let* assets := extract_resources zf in
         let* data := zf_read zf first in
         let* doc := lift_ext (json_loads data) in
         let* sheet := py_first doc in
         let* root := py_get sheet (py "rootTopic") PNone in
         Ret (root, assets)
     end)
    (Ret NO_RESULT).

End ArchiveReader.

(** ** Notions used to state the properties *)

Definition outcome_map {A B : Type} (f : A -> B) (m : outcome A) : outcome B :=
  match m with
  | Ret a => Ret (f a)
  | Raise e => Raise e
  | OutOfFuel => OutOfFuel
  end.

(** Headings and bulleted paragraphs carry the text of a node; pictures,
    field paragraphs and the empty paragraph of a rejected picture do
    not. *)
Definition is_heading (b : block) : bool :=
  match b with Heading _ _ => true | _ => false end.

Definition is_bulleted (b : block) : bool :=
  match b with
  | Paragraph _ (Some st) _ => bool_decide (st = LIST_BULLET)
  | _ => false
  end.

Definition is_text_block (b : block) : bool := is_heading b || is_bulleted b.

Definition is_picture (b : block) : bool :=
  match b with Picture _ _ => true | _ => false end.

Definition is_field (b : block) : bool :=
  match b with FieldParagraph _ => true | _ => false end.

Definition block_text (b : block) : pystr :=
  match b with
  | Heading _ t | Paragraph t _ _ => t
  | _ => []
  end.

Definition text_blocks (bs : list block) : list block := List.filter is_text_block bs.

(** The image part of a node is as the data model has it: no image, or a
    mapping whose [src] is missing, null or a string. *)
Definition image_shape_ok (d : pydict) : bool :=
  match dict_get d (py "image") with
  | None | Some PNone => true
  | Some (PDict image) =>
      match dict_get image (py "src") with
      | None | Some PNone | Some (PStr _) => true
      | _ => false
      end
  | _ => false
  end.

(** A node tree: a mapping whose children, under either shape, can be
    listed and are node trees themselves. *)
#[warnings="-register-all"]
Inductive Node : pyval -> Prop :=
| Node_topic (d : pydict) (children : list pyval) :
    iter_children (PDict d) = Ret children ->
    image_shape_ok d = true ->
    Forall Node children ->
    Node (PDict d).

(** The children of a node, none when they cannot be listed. *)
Definition children_of (topic : pyval) : list pyval :=
  match iter_children topic with
  | Ret cs => cs
  | _ => []
  end.

(** The nodes of a tree with their levels, each node before its subtree,
    the children in [iter_children] order. *)
Fixpoint subtree_fuel (fuel : nat) (topic : pyval) (level : Z) : list (pyval * Z) :=
  match fuel with
  | O => []
  | S fuel' =>
      (topic, level)
        :: flat_map (fun c => subtree_fuel fuel' c (level + 1)) (children_of topic)
  end.

Definition subtree (topic : pyval) (level : Z) : list (pyval * Z) :=
  subtree_fuel (pyval_size topic) topic level.

Definition node_count (topic : pyval) : nat := length (subtree topic 1).

Section Expected.
Context {ext : Externals}.

Definition title_of (topic : pyval) : pystr :=
  match topic_title topic with
  | Ret t => t
  | _ => []
  end.

(** The emission rule: a heading at [min(level, 9)] for the root level
    and for inner nodes, otherwise a bulleted paragraph indented by a
    quarter of an inch per level below the first, unindented when the
    style refuses the indent. *)
Definition emission_rule (title : pystr) (level : Z) (is_leaf : bool) : block :=
  if (level =? 1) || negb is_leaf
  then Heading (Z.min level 9) title
  else
    let indent := Inches_quarter (level - 1) in
    Paragraph title (Some LIST_BULLET)
              (if left_indent_accepted indent then Some indent else None).

Definition is_leaf_node (topic : pyval) : bool :=
  Nat.eqb (length (children_of topic)) 0.

(** The text block of a node at a level. *)
Definition node_block (topic : pyval) (level : Z) : block :=
  emission_rule (title_of topic) level (is_leaf_node topic).

(** The picture block a node contributes, if any. *)
Definition node_pictures (topic : pyval) (assets : assets_map) (w : spec_float)
  : list block :=
  match add_image new_document topic assets w with
  | Ret d => body d
  | _ => []
  end.

End Expected.

(** ** Sample inputs *)

(** What XML can hold: the characters of its [Char] production. *)
Definition xml_char (c : N) : bool :=
  ((c =? 9) || (c =? 10) || (c =? 13)
   || ((32 <=? c) && (c <=? 55295))
   || ((57344 <=? c) && (c <=? 65533))
   || ((65536 <=? c) && (c <=? 1114111)))%N.

Definition xml_compatible (s : pystr) : bool := forallb xml_char s.

Definition core_title_ok (t : pystr) : bool :=
  Nat.leb (length t) 255 && xml_compatible t.

(** A stack that lasts for 900 levels. *)
Definition stack_900 (level : Z) : bool := level <=? 900.

(** A sink that takes every picture but one-byte ones, and sniffs a GIF
    by its first byte. *)
Definition sample_externals : Externals := {|
  py_repr := fun _ => py "?";
  json_loads := fun _ => None;
  imghdr_what := fun data =>
    match data with
    | Byte.x47 :: _ => Some (Some (py "gif"))
    | Byte.x00 :: _ => None
    | _ => Some None
    end;
  left_indent_accepted := fun _ => true;
  picture_accepted := fun data _ => match data with [_] => false | _ => true end;
  text_accepted := xml_compatible;
  core_title_accepted := core_title_ok;
  stack_left := stack_900
|}.


Definition leaf (title : string) : pyval := PDict [(py "title", PStr (py title))].

Definition branch (title : string) (attached : list pyval) : pyval :=
  PDict [(py "title", PStr (py title));
         (py "children", PDict [(py "attached", PList attached)])].

(** The tree A[B, C[D]]. *)
Definition sample_tree : pyval :=
  branch "A" [leaf "B"; branch "C" [leaf "D"]].

Definition float_6 : spec_float := S754_finite false 6755399441055744 (-50).

(** The two shapes, read as the data model describes them: the child
    lists of the groups of ["topics"], and a named list of ["children"]. *)
Definition as_list (v : pyval) : option (list pyval) :=
  match v with
  | PList l => Some l
  | _ => None
  end.

Definition topics_groups (d : pydict) : option (list (list pyval)) :=
  match dict_get d (py "topics") with
  | None => Some []
  | Some (PDict groups) => mapM as_list (dict_values groups)
  | Some _ => None
  end.

Definition children_list (d : pydict) (key : pystr) : option (list pyval) :=
  match dict_get d (py "children") with
  | None => Some []
  | Some (PDict c) =>
      match dict_get c key with
      | None => Some []
      | Some v => as_list v
      end
  | Some _ => None
  end.

(** A node with both shapes at once. *)
Definition both_shapes : pydict :=
  [(py "title", PStr (py "R"));
   (py "children", PDict [(py "detached", PList [leaf "Z"]);
                          (py "attached", PList [leaf "X"; leaf "Y"])]);
   (py "topics", PDict [(py "g1", PList [leaf "P"]);
                        (py "g2", PList []);
                        (py "g3", PList [leaf "Q"])])].

(** The text blocks the emission rule gives the nodes of a tree, in
    tree order. *)
Definition expected_text {ext : Externals} (nodes : list (pyval * Z)) : list block :=
  List.map (fun nl => node_block (fst nl) (snd nl)) nodes.

(** The loop over the children of a node, at the level of the children. *)
Definition add_children {ext : Externals} (document : Document) (children : list pyval)
    (assets : assets_map) (level : Z) (w : spec_float) : outcome Document :=
  foldM (fun document child => add_topic document child assets level w)
        children document.

(** The image reference of a node: the non-empty string under
    ["image"]["src"]. *)
Definition image_src (d : pydict) : option pystr :=
  match dict_get d (py "image") with
  | Some (PDict image) =>
      match dict_get image (py "src") with
      | Some (PStr (c :: s)) => Some (c :: s)
      | _ => None
      end
  | _ => None
  end.



(** A node with an image reference. *)
Definition pictured (title : string) (src : string) (attached : list pyval) : pydict :=
  [(py "title", PStr (py title));
   (py "image", PDict [(py "src", PStr (py src))]);
   (py "children", PDict [(py "attached", PList attached)])].

(** Resources: a GIF, a TIFF-like blob, bytes the sniffer chokes on, and
    a one-byte GIF the sink rejects. *)
Definition sample_assets : assets_map :=
  <[py "resources/ok.gif" := [Byte.x47; Byte.x49; Byte.x46]]>
  (<[py "resources/a.tiff" := [Byte.x4d; Byte.x4d]]>
  (<[py "resources/bad" := [Byte.x00; Byte.x01]]>
  (<[py "resources/tiny.gif" := [Byte.x47]]> ∅))).

(** What the image part of a node appends: a picture, or the empty
    paragraph of a picture the sink rejected. *)
Definition image_block (b : block) : Prop :=
  is_picture b = true \/ b = EMPTY_PARAGRAPH.

(** What every block appended by the projection is: a heading or a
    bulleted paragraph whose text is not empty, a picture, or the empty
    paragraph left by a rejected picture; never a field. *)
Definition projected_block (b : block) : Prop :=
  is_field b = false
  /\ (is_text_block b = true /\ block_text b <> [] \/ image_block b).

(** The document with the paragraph of the table of contents in front. *)
Definition with_toc (d : Document) : Document :=
  {| core_title := core_title d; body := FieldParagraph TOC_INSTR :: body d |}.

Definition count_fields (bs : list block) : nat := length (List.filter is_field bs).

Definition without_fields (bs : list block) : list block :=
  List.filter (fun b => negb (is_field b)) bs.

(** An archive with a directory entry, a resource and the content. *)
Definition sample_zip : ZipFile :=
  [(py "content.json", inr [Byte.x5b; Byte.x5d]);
   (py "resources/", inr []);
   (py "resources/a.png", inr [Byte.x89; Byte.x50; Byte.x4e; Byte.x47]);
   (py "META-INF/manifest.json", inr [])].

(** An archive without the content entry. *)
Definition legacy_zip : ZipFile :=
  [(py "content.xml", inr [Byte.x3c]); (py "meta.xml", inr [])].

(** What a run that started on [new_document] appended, moved behind the
    body of [document]. *)
Definition rebase (document : Document) (o : outcome Document) : outcome Document :=
  outcome_map (fun d => extend_body document (body d)) o.

(** A run that was not cut short by the fuel bound. *)
Definition finished {A : Type} (o : outcome A) : Prop := o <> OutOfFuel.

(** ** The legacy fallback and [main] *)

(** The optional [xmind] package: [None] when the import failed, otherwise
    what [xmind.load(str(path)).getPrimarySheet().getData()] gives for a
    file, a value or a raised exception. *)
Class LegacyLibrary : Type := {
  xmind : option (source_file -> exn + pyval)
}.

Definition lift_sum {A : Type} (r : exn + A) : outcome A :=
  match r with
  | inl e => Raise e
  | inr a => Ret a
  end.

Definition load_from_xmind_lib {lib : LegacyLibrary} (path : source_file)
  : outcome (pyval * assets_map) :=
  match xmind with
  | None => Ret NO_RESULT
  | Some sheet_data =>
      let* dictSheet := lift_sum (sheet_data path) in
      let* topic := py_get dictSheet (py "topic") PNone in
      Ret (topic, ∅)
  end.

(** [v is None] *)
Definition is_none (v : pyval) : bool :=
  match v with
  | PNone => true
  | _ => false
  end.

(** [s.lstrip(chars)] and [s.strip(chars)] *)
Fixpoint lstrip_chars (chars s : pystr) : pystr :=
  match s with
  | [] => []
  | c :: s' => if bool_decide (c ∈ chars) then lstrip_chars chars s' else s
  end.

Definition strip_chars (chars s : pystr) : pystr :=
  rev (lstrip_chars chars (rev (lstrip_chars chars s))).

(** [s.replace(old, new)] for one-character [old] and [new] *)
Definition replace_char (old new : N) (s : pystr) : pystr :=
  List.map (fun c => if (c =? old)%N then new else c) s.

Definition DOUBLE_QUOTE : N := 34.
Definition SINGLE_QUOTE : N := 39.
Definition BACKSLASH : N := 92.
Definition SLASH : N := 47.

(** Lines 152-153, the string handed to [Path]: the source argument
    stripped of double quotes at its ends, then of single quotes, with
    every backslash turned into a slash. *)
Definition source_string (source : pystr) : pystr :=
  let pathSource := strip_chars [SINGLE_QUOTE] (strip_chars [DOUBLE_QUOTE] source) in
  replace_char BACKSLASH SLASH pathSource.

(** [pathlib]: the string of [Path(s).expanduser()], which drops
    [./], doubled and trailing slashes and expands a leading [~].  The
    program is modelled from a source whose home directory resolves. *)
Class PathLibrary : Type := {
  Path_expanduser : pystr -> pystr
}.

(** Lines 152-153: [source_path]. *)
Definition normalize_source {paths : PathLibrary} (source : pystr) : pystr :=
  Path_expanduser (source_string source).

(** The parsed command line, as far as the conversion reads it. *)
Record Args : Type := mkArgs {
  arg_source : pystr;
  arg_img_width : spec_float;
  arg_no_toc : bool
}.

(** How [main] ends: [sys.exit(1)] after one of its two messages, or the
    document handed to [document.save]. *)
Inductive main_result : Type :=
| MissingFile (source_path : pystr)
| Unparsable
| Saved (document : Document).


(** Lines 166-172: the structured content first, the legacy package when
    that gave no root. *)
Definition parse_source {ext : Externals} {lib : LegacyLibrary} (file : source_file)
  : outcome (pyval * assets_map) :=
  let* r := load_from_content_json file in
  if is_none (fst r) then load_from_xmind_lib file else Ret r.

(** [main] from the parsed arguments on: [files] tells what is at a
    path, [None] when nothing exists there.  The derivation of the output
    path and the write to disk are not part of the model: the result is
    the document that is saved. *)
Definition main {ext : Externals} {lib : LegacyLibrary} {paths : PathLibrary}
    (files : pystr -> option source_file) (args : Args) : outcome main_result :=
  let source_path := normalize_source (arg_source args) in
  match files source_path with
  | None => Ret (MissingFile source_path)
  | Some file =>
      let* r := parse_source file in
      let root_topic := fst r in
      let assets := snd r in
      if is_none root_topic then Ret Unparsable
      else
        let* document :=
          build_document (arg_no_toc args) (arg_img_width args) root_topic assets in
        Ret (Saved document)
  end.

(** ** Further notions *)

(** The image part of a mapping cannot raise: the image is missing or
    falsy, or a mapping whose [src] is not a non-empty list or mapping. *)
Definition image_readable (d : pydict) : bool :=
  match dict_get d (py "image") with
  | None => true
  | Some i =>
      if truthy i then
        match i with
        | PDict image =>
            match dict_get image (py "src") with
            | Some (PList (_ :: _)) | Some (PDict (_ :: _)) => false
            | _ => true
            end
        | _ => false
        end
      else true
  end.

(** The trees the projection can walk to the end: mappings whose children
    can be listed and whose image part cannot raise, all the way down. *)
#[warnings="-register-all"]
Inductive Walkable : pyval -> Prop :=
| Walk_topic (d : pydict) (children : list pyval) :
    iter_children (PDict d) = Ret children ->
    image_readable d = true ->
    Forall Walkable children ->
    Walkable (PDict d).

(** Text block and picture of every node, in tree order. *)
Definition expected_body {ext : Externals} (assets : assets_map) (w : spec_float)
    (nodes : list (pyval * Z)) : list block :=
  flat_map (fun nl => node_block (fst nl) (snd nl) :: node_pictures (fst nl) assets w)
           nodes.

(** Where the picture of a block comes from: non-empty bytes of the
    resource mapping, sniffed as a supported kind, accepted by the sink,
    at the given width. *)
Definition picture_from {ext : Externals} (assets : assets_map) (w : spec_float)
    (b : block) : Prop :=
  match b with
  | Picture data width =>
      width = w /\ data <> []
      /\ (exists key, assets !! key = Some data)
      /\ (exists kind, imghdr_what data = Some (Some kind) /\ kind ∈ SUPPORTED_KINDS)
      /\ picture_accepted data w = true
  | _ => True
  end.

(** What a block appended at nesting level [l] looks like: the heading
    or the bulleted paragraph of the level, a picture, or the empty
    paragraph of a rejected picture. *)
Definition level_block (l : Z) (b : block) : Prop :=
  match b with
  | Heading h _ => h = Z.min l 9 /\ (1 <= h <= 9)%Z
  | Paragraph text style indent =>
      (style = Some LIST_BULLET /\ (2 <= l)%Z
       /\ (indent = None \/ indent = Some (228600 * (l - 1))%Z))
      \/ b = EMPTY_PARAGRAPH
  | Picture _ _ => True
  | FieldParagraph _ => False
  end.

(** The text blocks of a document. *)
Definition document_text (d : Document) : list block := text_blocks (body d).

(** The pictures of a document. *)
Definition document_pictures (d : Document) : list block :=
  List.filter is_picture (body d).

(** The names [extract_resources] takes: under ["resources/"] and not a
    directory. *)
Definition resource_name (name : pystr) : bool :=
  startswith name RESOURCES && negb (endswith name (py "/")).

(** One round of the loop of [extract_resources]. *)
Definition extract_entry (zf : ZipFile) (mapping : assets_map) (name : pystr)
  : outcome assets_map :=
  if resource_name name
  then let* data := zf_read zf name in
       Ret (<[XAP ++ name := data]> (<[name := data]> mapping))
  else Ret mapping.

(** A resource of the archive whose member cannot be read. *)
Definition unreadable (zf : ZipFile) (name : pystr) : Prop :=
  In name (namelist zf) /\ resource_name name = true
  /\ exists e, getinfo zf name = Some (inl e).


Definition ffff_tree : pyval :=
  PDict [(py "title", PStr (py "A"));
         (py "children",
          PDict [(py "attached", PList [leaf "B"; PDict [(py "title", PStr [65535%N])]])])].

(** A path library that changes nothing. *)
Definition plain_paths : PathLibrary := {| Path_expanduser := fun s => s |}.

(** The stack and the sink are ready for a tree projected at a level:
    every node is at a level the stack reaches and has a title the sink
    takes. *)
Definition sink_ready {ext : Externals} (topic : pyval) (level : Z) : bool :=
  forallb (fun nl => stack_left (snd nl) && text_accepted (title_of (fst nl)))
          (subtree topic level).


(** A legacy package that knows one sheet, and none. *)
Definition sample_legacy : LegacyLibrary := {|
  xmind := Some (fun _ =>
    inr (PDict [(py "topic", PDict (pictured "T" "resources/ok.gif" [leaf "k"]))]))
|}.

(** A legacy package that fails on every file. *)
Definition failing_legacy : LegacyLibrary := {|
  xmind := Some (fun _ => inl OtherError)
|}.

(** Libraries that parse every content entry to one sheet whose root
    refers to a picture by its aliased path, and sniff a PNG by its first
    byte. *)
Definition reading_externals : Externals := {|
  py_repr := fun _ => py "?";
  json_loads := fun _ =>
    Some (PList [PDict [(py "rootTopic",
                         PDict (pictured "T" "xap:resources/a.png" [leaf "k"]))]]);
  imghdr_what := fun data =>
    match data with
    | Byte.x89 :: _ => Some (Some (py "png"))
    | _ => Some None
    end;
  left_indent_accepted := fun _ => true;
  picture_accepted := fun _ _ => true;
  text_accepted := xml_compatible;
  core_title_accepted := core_title_ok;
  stack_left := stack_900
|}.

Definition sample_args : Args :=
  {| arg_source := [DOUBLE_QUOTE] ++ py "C:\maps\plan.xmind" ++ [DOUBLE_QUOTE];
     arg_img_width := float_6;
     arg_no_toc := false |}.


(** An archive whose picture is stored with a compression that cannot
    be read. *)
Definition broken_zip : ZipFile :=
  [(py "content.json", inr [Byte.x5b; Byte.x5d]);
   (py "resources/a.png", inl NotImplementedError)].

(** Builds the derivation of [Node] for a concrete tree. *)
Ltac node_tree := repeat (econstructor; try reflexivity).

(** * Properties *)

(** ** Results and folds *)

Lemma bind_Ret_inv {A B : Type} (m : outcome A) (k : A -> outcome B) (b : B) :
  bind m k = Ret b -> exists a, m = Ret a /\ k a = Ret b.
Proof. destruct m; simpl; intros E; try discriminate. eauto. Qed.

Lemma foldM_ext_Forall {A B : Type} (f g : A -> B -> outcome A) (xs : list B) :
  Forall (fun x => forall acc, f acc x = g acc x) xs ->
  forall acc, foldM f xs acc = foldM g xs acc.
Proof.
  induction 1 as [|x xs Hx _ IH]; intros acc; simpl; [reflexivity|].
  rewrite Hx. destruct (g acc x); simpl; auto.
Qed.

Lemma foldM_app {A B : Type} (f : A -> B -> outcome A) (xs ys : list B) (acc : A) :
  foldM f (xs ++ ys) acc = let* acc' := foldM f xs acc in foldM f ys acc'.
Proof.
  revert acc. induction xs as [|x xs IH]; intros acc; simpl; [reflexivity|].
  destruct (f acc x); simpl; auto.
Qed.

(** A loop that appends what each element yields. *)
Lemma foldM_collect {A B : Type} (f : B -> outcome (list A)) (xs : list B)
    (css : list (list A)) :
  Forall2 (fun x cs => f x = Ret cs) xs css ->
  forall acc,
    foldM (fun acc x => let* cs := f x in Ret (acc ++ cs)) xs acc
    = Ret (acc ++ concat css).
Proof.
  induction 1 as [|x cs xs css Hx _ IH]; intros acc; simpl.
  - now rewrite app_nil_r.
  - rewrite Hx. simpl. rewrite IH. now rewrite <- app_assoc.
Qed.

Lemma foldM_collect_inv {A B : Type} (f : B -> outcome (list A)) (xs : list B) :
  forall acc r,
    foldM (fun acc x => let* cs := f x in Ret (acc ++ cs)) xs acc = Ret r ->
    exists css, Forall2 (fun x cs => f x = Ret cs) xs css /\ r = acc ++ concat css.
Proof.
  induction xs as [|x xs IH]; intros acc r; simpl.
  - intros [= <-]. exists []. split; [constructor|]. now rewrite app_nil_r.
  - intros E. apply bind_Ret_inv in E as (acc' & E1 & E2).
    apply bind_Ret_inv in E1 as (cs & Hcs & [= <-]).
    apply IH in E2 as (css & Hall & ->).
    exists (cs :: css). split; [now constructor|]. simpl. now rewrite <- app_assoc.
Qed.

(** ** Tree Normalizer *)

Lemma as_list_iter (v : pyval) (l : list pyval) :
  as_list v = Some l -> py_iter v = Ret l.
Proof. destruct v; simpl; intros [= <-]; reflexivity. Qed.

Lemma iter_children_shapes (d : pydict) (groups : list (list pyval))
    (attached detached : list pyval) :
  topics_groups d = Some groups ->
  children_list d (py "attached") = Some attached ->
  children_list d (py "detached") = Some detached ->
  iter_children (PDict d) = Ret (concat groups ++ attached ++ detached).
Proof.
  unfold topics_groups, children_list, iter_children, py_get.
  intros Hg Ha Hd. simpl bind at 1.
  assert (Hgrouped :
    (let* groups0 := py_values (default (PDict []) (dict_get d (py "topics"))) in
     foldM (fun acc group => let* cs := py_iter group in Ret (acc ++ cs)) groups0 [])
    = Ret (concat groups)).
  { destruct (dict_get d (py "topics")) as [[]|]; simpl in *; try discriminate.
    - apply mapM_Some in Hg.
      rewrite (foldM_collect py_iter _ groups); [reflexivity|].
      eapply Forall2_impl; [exact Hg|]. intros; now apply as_list_iter.
    - now inversion Hg. }
  destruct (py_values _) as [groups0| |]; simpl in Hgrouped |- *; try discriminate.
  rewrite Hgrouped. simpl.
  destruct (dict_get d (py "children")) as [[]|]; simpl in *; try discriminate.
  - destruct (dict_get d0 (py "attached")) as [va|]; simpl in *.
    + rewrite (as_list_iter _ _ Ha). simpl.
      destruct (dict_get d0 (py "detached")) as [vd|]; simpl in *.
      * rewrite (as_list_iter _ _ Hd). simpl. now rewrite <- app_assoc.
      * inversion Hd. now rewrite <- app_assoc.
    + inversion Ha.
      destruct (dict_get d0 (py "detached")) as [vd|]; simpl in *.
      * rewrite (as_list_iter _ _ Hd). simpl. now rewrite <- app_assoc.
      * inversion Hd. now rewrite <- app_assoc.
  - inversion Ha. inversion Hd. simpl. now rewrite !app_nil_r.
Qed.

(** C3: [iter_children] yields the children of every group of ["topics"] in
    group order, then the ["attached"] list, then the ["detached"] list of
    ["children"]; with both shapes present it yields the concatenation
    without raising, with neither it yields nothing. *)
Theorem iter_children_order (d : pydict) (groups : list (list pyval))
    (attached detached : list pyval) :
  topics_groups d = Some groups ->
  children_list d (py "attached") = Some attached ->
  children_list d (py "detached") = Some detached ->
  iter_children (PDict d) = Ret (concat groups ++ attached ++ detached)
  /\ (dict_get d (py "topics") = None -> dict_get d (py "children") = None ->
      iter_children (PDict d) = Ret []).
Proof.
  intros Hg Ha Hd. split.
  - now apply iter_children_shapes.
  - intros Ht Hc.
    unfold topics_groups in Hg. unfold children_list in Ha, Hd.
    rewrite Ht in Hg. rewrite Hc in Ha, Hd.
    injection Hg as <-. injection Ha as <-. injection Hd as <-.
    apply (iter_children_shapes d [] [] []).
    + unfold topics_groups. now rewrite Ht.
    + unfold children_list. now rewrite Hc.
    + unfold children_list. now rewrite Hc.
Qed.

Lemma iter_children_order_witness :
  topics_groups both_shapes = Some [[leaf "P"]; []; [leaf "Q"]]
  /\ children_list both_shapes (py "attached") = Some [leaf "X"; leaf "Y"]
  /\ children_list both_shapes (py "detached") = Some [leaf "Z"]
  /\ iter_children (PDict both_shapes)
     = Ret [leaf "P"; leaf "Q"; leaf "X"; leaf "Y"; leaf "Z"].
Proof.
  split; [reflexivity|]. split; [reflexivity|]. split; [reflexivity|].
  exact (proj1 (iter_children_order both_shapes
                  [[leaf "P"]; []; [leaf "Q"]] [leaf "X"; leaf "Y"] [leaf "Z"]
                  eq_refl eq_refl eq_refl)).
Defined.

(** ** The measure of the recursion *)

Local Open Scope nat_scope.

Lemma pyval_size_pos (v : pyval) : 1 <= pyval_size v.
Proof. destruct v; simpl; lia. Qed.

Lemma size_in_list (l : list pyval) (v : pyval) :
  In v l -> pyval_size v < pyval_size (PList l).
Proof.
  simpl. induction l as [|x l IH]; simpl; [tauto|].
  intros [->|Hin]; [lia|]. specialize (IH Hin). lia.
Qed.

Lemma size_dict_values (d : pydict) (v : pyval) :
  In v (dict_values d) -> pyval_size v < pyval_size (PDict d).
Proof.
  simpl. induction d as [|[k x] d IH]; simpl; [tauto|].
  intros [->|Hin]; [lia|]. specialize (IH Hin). lia.
Qed.

Lemma dict_get_values (d : pydict) (k : pystr) (v : pyval) :
  dict_get d k = Some v -> In v (dict_values d).
Proof.
  induction d as [|[k' x] d IH]; simpl; [discriminate|].
  destruct (decide (k' = k)); [intros [= ->]; now left | auto].
Qed.

Lemma size_dict_get (d : pydict) (k : pystr) (v : pyval) :
  dict_get d k = Some v -> pyval_size v < pyval_size (PDict d).
Proof. intros E. eapply size_dict_values, dict_get_values, E. Qed.

Lemma py_iter_size (g : pyval) (cs : list pyval) :
  py_iter g = Ret cs -> Forall (fun c => pyval_size c <= pyval_size g) cs.
Proof.
  destruct g; simpl; try discriminate; intros [= <-]; apply List.Forall_forall.
  - intros c Hin. apply in_map_iff in Hin as (x & <- & _). simpl. lia.
  - intros c Hin. pose proof (size_in_list _ _ Hin). simpl in *. lia.
  - intros c Hin. apply in_map_iff in Hin as (x & <- & _). simpl. lia.
Qed.

Lemma py_get_size (v : pyval) (k : pystr) (dflt r : pyval) :
  py_get v k dflt = Ret r -> r = dflt \/ pyval_size r < pyval_size v.
Proof.
  destruct v; simpl; try discriminate. intros [= <-].
  destruct (dict_get d k) eqn:E; simpl; [right|now left].
  eapply size_dict_get, E.
Qed.

Lemma collect_size (gs : list pyval) (css : list (list pyval)) (n : nat) :
  Forall2 (fun g cs => py_iter g = Ret cs) gs css ->
  Forall (fun g => pyval_size g < n) gs ->
  Forall (fun c => pyval_size c < n) (concat css).
Proof.
  induction 1 as [|g cs gs css Hg _ IH]; intros Hall; simpl; [constructor|].
  inversion Hall as [|? ? Hlt Hrest]; subst.
  apply Forall_app. split; [|auto].
  eapply Forall_impl; [apply py_iter_size, Hg|]. simpl. intros; lia.
Qed.

Lemma listed_size (children : pyval) (key : pystr) (lst : pyval) (cs : list pyval) (n : nat) :
  py_get children key (PList []) = Ret lst ->
  py_iter lst = Ret cs ->
  pyval_size children <= n ->
  Forall (fun c => pyval_size c < n) cs.
Proof.
  intros Hget Hiter Hn. apply py_get_size in Hget as [->|Hlt].
  - injection Hiter as <-. constructor.
  - eapply Forall_impl; [apply py_iter_size, Hiter|]. simpl. intros; lia.
Qed.

(** Every child that [iter_children] yields is strictly smaller than the
    topic it was taken from. *)
Lemma iter_children_smaller (topic : pyval) (cs : list pyval) :
  iter_children topic = Ret cs ->
  Forall (fun c => pyval_size c < pyval_size topic) cs.
Proof.
  unfold iter_children. intros E.
  apply bind_Ret_inv in E as (topics & Ht & E).
  apply bind_Ret_inv in E as (groups & Hv & E).
  apply bind_Ret_inv in E as (grouped & Hg & E).
  apply bind_Ret_inv in E as (children & Hc & E).
  simpl in E.
  apply bind_Ret_inv in E as (acc1 & E1 & E).
  apply bind_Ret_inv in E1 as (la & Hla & E1).
  apply bind_Ret_inv in E1 as (ca & Hca & [= <-]).
  apply bind_Ret_inv in E as (acc2 & E2 & [= <-]).
  apply bind_Ret_inv in E2 as (ld & Hld & E2).
  apply bind_Ret_inv in E2 as (cd & Hcd & [= <-]).
  apply foldM_collect_inv in Hg as (css & Hall & ->). simpl.
  assert (Hchildren : pyval_size children <= pyval_size topic).
  { apply py_get_size in Hc as [->|Hlt]; [|lia]. apply (pyval_size_pos topic). }
  repeat (apply Forall_app; split).
  - eapply collect_size; [exact Hall|].
    destruct topics; try discriminate. injection Hv as <-.
    apply List.Forall_forall. intros g Hin. apply size_dict_values in Hin.
    apply py_get_size in Ht as [Hd|Hlt]; [|lia].
    injection Hd as ->. pose proof (pyval_size_pos g). simpl in Hin. lia.
  - eapply listed_size; [exact Hla | exact Hca | exact Hchildren].
  - eapply listed_size; [exact Hld | exact Hcd | exact Hchildren].
Qed.

(** ** Only the recursion consumes fuel *)

Lemma finished_bind {A B : Type} (m : outcome A) (k : A -> outcome B) :
  finished m -> (forall a, m = Ret a -> finished (k a)) -> finished (bind m k).
Proof.
  unfold finished. destruct m; simpl; intros Hm Hk; [now apply Hk | discriminate | easy].
Qed.

Lemma finished_foldM {A B : Type} (f : A -> B -> outcome A) (xs : list B) :
  Forall (fun x => forall acc, finished (f acc x)) xs ->
  forall acc, finished (foldM f xs acc).
Proof.
  induction 1 as [|x xs Hx _ IH]; intros acc; simpl; [discriminate|].
  apply finished_bind; auto.
Qed.

Lemma finished_py_get (v : pyval) (k : pystr) (dflt : pyval) : finished (py_get v k dflt).
Proof. destruct v; discriminate. Qed.

Lemma finished_py_values (v : pyval) : finished (py_values v).
Proof. destruct v; discriminate. Qed.

Lemma finished_py_iter (v : pyval) : finished (py_iter v).
Proof. destruct v; discriminate. Qed.

Create HintDb finished discriminated.
#[local] Hint Resolve finished_py_get finished_py_values finished_py_iter : finished.
#[local] Hint Extern 1 (finished (Ret _)) => discriminate : finished.

(** One step through a [let*]: the bound run by the hints, then the rest. *)
Ltac finished_step := apply finished_bind; [auto with finished | intros ? _].

Lemma finished_collect {A B : Type} (f : B -> outcome (list A)) (xs : list B) (acc : list A) :
  (forall x, finished (f x)) ->
  finished (foldM (fun acc x => let* cs := f x in Ret (acc ++ cs)) xs acc).
Proof.
  intros Hf. apply finished_foldM, List.Forall_forall. intros x _ acc'.
  apply finished_bind; [apply Hf | discriminate].
Qed.

Lemma finished_iter_children (topic : pyval) : finished (iter_children topic).
Proof.
  unfold iter_children. do 2 finished_step.
  apply finished_bind; [apply finished_collect, finished_py_iter | intros ? _].
  finished_step.
  apply finished_foldM, List.Forall_forall. intros key _ acc.
  do 2 finished_step. auto with finished.
Qed.

Section Fuel.
Context {ext : Externals}.

Lemma finished_topic_title (topic : pyval) : finished (topic_title topic).
Proof.
  unfold topic_title. apply finished_bind; [apply finished_py_get | discriminate].
Qed.

Lemma finished_add_text_block (document : Document) (title : pystr) (level : Z)
    (is_leaf : bool) :
  finished (add_text_block document title level is_leaf).
Proof.
  unfold add_text_block, add_heading, add_paragraph, set_left_indent.
  destruct ((level =? 1)%Z || negb is_leaf).
  - destruct ((0 <=? Z.min level 9)%Z && (Z.min level 9 <=? 9)%Z); [|discriminate].
    destruct (text_accepted title); discriminate.
  - destruct (text_accepted title); simpl; [|discriminate].
    destruct (left_indent_accepted _); discriminate.
Qed.

Lemma finished_embed_image (document : Document) (data : bytes) (w : spec_float) :
  finished (embed_image document data w).
Proof.
  unfold embed_image.
  destruct (imghdr_what data) as [kind|]; [|discriminate].
  destruct (kind_supported kind); discriminate.
Qed.

Lemma finished_add_image (document : Document) (topic : pyval) (assets : assets_map)
    (w : spec_float) :
  finished (add_image document topic assets w).
Proof.
  unfold add_image.
  apply finished_bind; [apply finished_py_get|]. intros i _.
  apply finished_bind; [apply finished_py_get|]. intros src _.
  destruct (truthy src); [|discriminate].
  apply finished_bind; [destruct src; discriminate|]. intros [data|] _; [|discriminate].
  destruct (Nat.eqb (length data) 0); [discriminate|].
  apply finished_embed_image.
Qed.

(** With fuel at least the size of the topic, the result no longer
    depends on the fuel and is never [OutOfFuel]. *)
Lemma add_topic_fuel_stable (n : nat) :
  forall (m : nat) (document : Document) (topic : pyval) (assets : assets_map)
         (level : Z) (w : spec_float),
    pyval_size topic <= n -> pyval_size topic <= m ->
    add_topic_fuel n document topic assets level w
    = add_topic_fuel m document topic assets level w
    /\ finished (add_topic_fuel n document topic assets level w).
Proof.
  induction n as [|n IH]; intros m document topic assets level w Hn Hm.
  { pose proof (pyval_size_pos topic). lia. }
  destruct m as [|m]; [pose proof (pyval_size_pos topic); lia|].
  simpl.
  destruct (stack_left level); [|split; [reflexivity|discriminate]].
  destruct (topic_title topic) as [title| |] eqn:Etitle; simpl;
    [|split; [reflexivity|discriminate] | now destruct (finished_topic_title topic)].
  destruct (iter_children topic) as [children| |] eqn:Echildren; simpl;
    [|split; [reflexivity|discriminate] | now destruct (finished_iter_children topic)].
  pose proof (iter_children_smaller _ _ Echildren) as Hsmall.
  destruct (add_text_block document title level _) as [doc1| |] eqn:Etext; simpl;
    [|split; [reflexivity|discriminate]
     | now destruct (finished_add_text_block document title level
                       (Nat.eqb (length children) 0))].
  destruct (add_image doc1 topic assets w) as [doc2| |] eqn:Eimage; simpl;
    [|split; [reflexivity|discriminate]
     | now destruct (finished_add_image doc1 topic assets w)].
  split.
  - apply foldM_ext_Forall. eapply Forall_impl; [exact Hsmall|].
    simpl. intros c Hc acc. apply IH; lia.
  - apply finished_foldM. eapply Forall_impl; [exact Hsmall|].
    simpl. intros c Hc acc. apply (IH n); lia.
Qed.

(** [add_topic] satisfies the recursive equation of the source. *)
Lemma add_topic_unfold (document : Document) (topic : pyval) (assets : assets_map)
    (level : Z) (w : spec_float) :
  add_topic document topic assets level w
  = if stack_left level then
      let* title := topic_title topic in
      let* children := iter_children topic in
      let is_leaf := Nat.eqb (length children) 0 in
      let* document := add_text_block document title level is_leaf in
      let* document := add_image document topic assets w in
      foldM (fun document child => add_topic document child assets (level + 1)%Z w)
            children document
    else Raise RecursionError.
Proof.
  unfold add_topic.
  destruct (pyval_size topic) as [|n] eqn:En; [pose proof (pyval_size_pos topic); lia|].
  simpl.
  destruct (stack_left level); [|reflexivity].
  destruct (topic_title topic) as [title| |]; simpl; try reflexivity.
  destruct (iter_children topic) as [children| |] eqn:Echildren; simpl; try reflexivity.
  destruct (add_text_block document title level _) as [doc1| |]; simpl; try reflexivity.
  destruct (add_image doc1 topic assets w) as [doc2| |]; simpl; try reflexivity.
  apply foldM_ext_Forall.
  eapply Forall_impl; [exact (iter_children_smaller _ _ Echildren)|].
  simpl. intros c Hc acc. apply add_topic_fuel_stable; lia.
Qed.

Lemma add_topic_Ret_inv (document document' : Document) (topic : pyval)
    (assets : assets_map) (level : Z) (w : spec_float) :
  add_topic document topic assets level w = Ret document' ->
  stack_left level = true
  /\ (let* title := topic_title topic in
      let* children := iter_children topic in
      let is_leaf := Nat.eqb (length children) 0 in
      let* document := add_text_block document title level is_leaf in
      let* document := add_image document topic assets w in
      foldM (fun document child => add_topic document child assets (level + 1)%Z w)
            children document) = Ret document'.
Proof.
  rewrite add_topic_unfold. destruct (stack_left level); [now split|discriminate].
Qed.

Lemma finished_add_topic (document : Document) (topic : pyval) (assets : assets_map)
    (level : Z) (w : spec_float) :
  finished (add_topic document topic assets level w).
Proof. apply (add_topic_fuel_stable _ (pyval_size topic)); lia. Qed.

End Fuel.

(** C10: [add_topic] terminates on every loaded tree: the children it
    recurses into are strictly smaller than the topic, every amount of
    fuel from the size of the topic upwards gives the same result, and
    that result is a document or an exception, never exhaustion. *)
Theorem add_topic_terminates (ext : Externals) (document : Document) (topic : pyval)
    (assets : assets_map) (level : Z) (w : spec_float) :
  Forall (fun c => pyval_size c < pyval_size topic) (children_of topic)
  /\ (forall k : nat,
        add_topic_fuel (pyval_size topic + k) document topic assets level w
        = add_topic document topic assets level w)
  /\ ((exists document', add_topic document topic assets level w = Ret document')
      \/ (exists e, add_topic document topic assets level w = Raise e)).
Proof.
  split; [|split].
  - unfold children_of. destruct (iter_children topic) eqn:E; try constructor.
    now apply iter_children_smaller.
  - intros k. unfold add_topic. apply add_topic_fuel_stable; lia.
  - pose proof (finished_add_topic document topic assets level w) as Hfin.
    destruct (add_topic document topic assets level w); [left|right|]; eauto.
    now destruct Hfin.
Qed.

(** ** The document is only appended to *)

Lemma extend_body_nil (document : Document) : extend_body document [] = document.
Proof. destruct document. unfold extend_body. simpl. now rewrite app_nil_r. Qed.

Lemma extend_extend (document : Document) (bs cs : list block) :
  extend_body (extend_body document bs) cs = extend_body document (bs ++ cs).
Proof. unfold extend_body. simpl. now rewrite app_assoc. Qed.

Lemma append_extend (document : Document) (b : block) :
  append_block document b = extend_body document [b].
Proof. reflexivity. Qed.

Lemma rebase_Ret_new (document : Document) :
  Ret document = rebase document (Ret new_document).
Proof. unfold rebase. simpl. now rewrite extend_body_nil. Qed.

Lemma foldM_rebase {B : Type} (f : Document -> B -> outcome Document) (xs : list B) :
  Forall (fun x => forall document, f document x = rebase document (f new_document x)) xs ->
  forall document, foldM f xs document = rebase document (foldM f xs new_document).
Proof.
  induction 1 as [|x xs Hx _ IH]; intros document; simpl.
  - apply rebase_Ret_new.
  - rewrite (Hx document). destruct (f new_document x) as [d| |]; simpl; try reflexivity.
    rewrite IH. rewrite (IH d).
    destruct (foldM f xs new_document) as [d'| |]; simpl; try reflexivity.
    unfold rebase. simpl. now rewrite extend_extend.
Qed.

Section Frame.
Context {ext : Externals}.

Lemma add_text_block_rebase (document : Document) (title : pystr) (level : Z)
    (is_leaf : bool) :
  add_text_block document title level is_leaf
  = rebase document (add_text_block new_document title level is_leaf).
Proof.
  unfold add_text_block, add_heading, add_paragraph.
  destruct ((level =? 1)%Z || negb is_leaf).
  - destruct ((0 <=? Z.min level 9)%Z && (Z.min level 9 <=? 9)%Z); [|reflexivity].
    destruct (text_accepted title); reflexivity.
  - destruct (text_accepted title); simpl; [|reflexivity].
    destruct (try_except _ _); reflexivity.
Qed.

Lemma embed_image_rebase (document : Document) (data : bytes) (w : spec_float) :
  embed_image document data w = rebase document (embed_image new_document data w).
Proof.
  unfold embed_image, add_picture.
  destruct (imghdr_what data) as [kind|]; [|apply rebase_Ret_new].
  destruct (kind_supported kind); [|apply rebase_Ret_new].
  destruct (picture_accepted data w); simpl; [reflexivity|].
  destruct (Inches_fails w); simpl; [apply rebase_Ret_new|reflexivity].
Qed.

Lemma add_image_rebase (document : Document) (topic : pyval) (assets : assets_map)
    (w : spec_float) :
  add_image document topic assets w
  = rebase document (add_image new_document topic assets w).
Proof.
  unfold add_image.
  destruct (py_get topic (py "image") PNone) as [i| |]; simpl; try reflexivity.
  destruct (py_get (py_or i (PDict [])) (py "src") PNone) as [src| |]; simpl;
    try reflexivity.
  destruct (truthy src); [|apply rebase_Ret_new].
  destruct (assets_get assets src) as [[data|]| |]; simpl;
    try reflexivity; try apply rebase_Ret_new.
  destruct (Nat.eqb (length data) 0); [apply rebase_Ret_new|].
  apply embed_image_rebase.
Qed.

Lemma add_topic_fuel_rebase (fuel : nat) :
  forall (document : Document) (topic : pyval) (assets : assets_map) (level : Z)
         (w : spec_float),
    add_topic_fuel fuel document topic assets level w
    = rebase document (add_topic_fuel fuel new_document topic assets level w).
Proof.
  induction fuel as [|fuel IH]; intros document topic assets level w; [reflexivity|].
  simpl.
  destruct (stack_left level); [|reflexivity].
  destruct (topic_title topic) as [title| |]; simpl; try reflexivity.
  destruct (iter_children topic) as [children| |]; simpl; try reflexivity.
  rewrite (add_text_block_rebase document).
  destruct (add_text_block new_document title level _) as [d1| |]; simpl; try reflexivity.
  rewrite (add_image_rebase (extend_body document (body d1))).
  rewrite (add_image_rebase d1).
  destruct (add_image new_document topic assets w) as [d2| |]; simpl; try reflexivity.
  rewrite foldM_rebase by (apply List.Forall_forall; intros; apply IH).
  rewrite (foldM_rebase _ _ (proj2 (List.Forall_forall _ _)
             (fun c _ d => IH d c assets (level + 1)%Z w)) (extend_body d1 (body d2))).
  destruct (foldM _ children new_document) as [d3| |]; simpl; try reflexivity.
  unfold rebase. simpl. now rewrite !extend_extend, app_assoc.
Qed.

Lemma add_topic_rebase (document : Document) (topic : pyval) (assets : assets_map)
    (level : Z) (w : spec_float) :
  add_topic document topic assets level w
  = rebase document (add_topic new_document topic assets level w).
Proof. apply add_topic_fuel_rebase. Qed.

End Frame.

(** ** Node trees *)

Lemma Node_ind' (P : pyval -> Prop) :
  (forall d children,
      iter_children (PDict d) = Ret children ->
      image_shape_ok d = true ->
      Forall Node children -> Forall P children -> P (PDict d)) ->
  forall topic, Node topic -> P topic.
Proof.
  intros step. fix IH 2. intros topic [d children Hc Hi Hall].
  apply (step d children Hc Hi Hall).
  clear Hc. revert children Hall. fix IHall 2.
  intros children [|c cs Hn Hcs]; constructor; [apply IH, Hn | apply IHall, Hcs].
Qed.

Lemma Node_children (topic : pyval) : Node topic -> Forall Node (children_of topic).
Proof. intros [d children Hc _ Hall]. unfold children_of. now rewrite Hc. Qed.

Lemma flat_map_ext_Forall {A B : Type} (f g : A -> list B) (xs : list A) :
  Forall (fun x => f x = g x) xs -> flat_map f xs = flat_map g xs.
Proof. induction 1 as [|x xs Hx _ IH]; simpl; [reflexivity|]. now rewrite Hx, IH. Qed.

Lemma children_of_smaller (topic : pyval) :
  Forall (fun c => pyval_size c < pyval_size topic) (children_of topic).
Proof.
  unfold children_of. destruct (iter_children topic) eqn:E; try constructor.
  now apply iter_children_smaller.
Qed.

Lemma subtree_fuel_stable (n : nat) :
  forall (m : nat) (topic : pyval) (level : Z),
    pyval_size topic <= n -> pyval_size topic <= m ->
    subtree_fuel n topic level = subtree_fuel m topic level.
Proof.
  induction n as [|n IH]; intros m topic level Hn Hm.
  { pose proof (pyval_size_pos topic). lia. }
  destruct m as [|m]; [pose proof (pyval_size_pos topic); lia|].
  simpl. f_equal. apply flat_map_ext_Forall.
  eapply Forall_impl; [apply children_of_smaller|]. simpl. intros c Hc. apply IH; lia.
Qed.

Lemma subtree_unfold (topic : pyval) (level : Z) :
  subtree topic level
  = (topic, level) :: flat_map (fun c => subtree c (level + 1)%Z) (children_of topic).
Proof.
  unfold subtree.
  destruct (pyval_size topic) as [|n] eqn:En; [pose proof (pyval_size_pos topic); lia|].
  simpl. f_equal. apply flat_map_ext_Forall.
  eapply Forall_impl; [apply children_of_smaller|]. simpl. intros c Hc.
  apply subtree_fuel_stable; lia.
Qed.

(** ** One node *)

Section OneNode.
Context {ext : Externals}.

Lemma add_text_block_rule (document : Document) (title : pystr) (level : Z)
    (is_leaf : bool) :
  (1 <= level)%Z -> text_accepted title = true ->
  add_text_block document title level is_leaf
  = Ret (append_block document (emission_rule title level is_leaf)).
Proof.
  intros Hlevel Htext.
  unfold add_text_block, emission_rule, add_heading, add_paragraph, set_left_indent.
  rewrite Htext.
  destruct ((level =? 1)%Z || negb is_leaf) eqn:Erule.
  - assert (Hrange : ((0 <=? Z.min level 9)%Z && (Z.min level 9 <=? 9)%Z) = true)
      by (apply andb_true_intro; split; apply Z.leb_le; lia).
    now rewrite Hrange.
  - rewrite Z.max_l by lia. simpl.
    destruct (left_indent_accepted (Inches_quarter (level - 1))); reflexivity.
Qed.

(** A title the sink does not take stops the projection. *)
Lemma add_text_block_refused (document : Document) (title : pystr) (level : Z)
    (is_leaf : bool) :
  text_accepted title = false ->
  add_text_block document title level is_leaf = Raise ValueError.
Proof.
  intros Htext. unfold add_text_block, add_heading, add_paragraph. rewrite Htext.
  destruct ((level =? 1)%Z || negb is_leaf); [|reflexivity].
  now destruct (_ && _).
Qed.

Lemma emission_rule_text (title : pystr) (level : Z) (is_leaf : bool) :
  is_text_block (emission_rule title level is_leaf) = true
  /\ block_text (emission_rule title level is_leaf) = title.
Proof. unfold emission_rule. destruct (_ || _); split; reflexivity. Qed.

Lemma image_block_not_text (b : block) : image_block b -> is_text_block b = false.
Proof. intros [H| ->]; [now destruct b|reflexivity]. Qed.

Lemma image_block_not_field (b : block) : image_block b -> is_field b = false.
Proof. intros [H| ->]; [now destruct b|reflexivity]. Qed.

(** The image part appends at most one block, the picture or the empty
    paragraph of a rejected picture, and swallows what sniffing and
    embedding raise. *)
Lemma embed_image_pictures (document : Document) (data : bytes) (w : spec_float) :
  exists pics,
    embed_image document data w = Ret (extend_body document pics)
    /\ Forall image_block pics /\ length pics <= 1.
Proof.
  unfold embed_image, add_picture.
  destruct (imghdr_what data) as [kind|].
  - destruct (kind_supported kind).
    + destruct (picture_accepted data w); simpl.
      * exists [Picture data w].
        repeat split; [repeat constructor; now left | simpl; lia].
      * destruct (Inches_fails w); simpl.
        -- exists []. rewrite extend_body_nil. repeat split; [constructor | simpl; lia].
        -- exists [EMPTY_PARAGRAPH].
           repeat split; [repeat constructor; now right | simpl; lia].
    + exists []. rewrite extend_body_nil. repeat split; [constructor | simpl; lia].
  - exists []. rewrite extend_body_nil. repeat split; [constructor | simpl; lia].
Qed.

Lemma add_image_pictures (document document' : Document) (topic : pyval)
    (assets : assets_map) (w : spec_float) :
  add_image document topic assets w = Ret document' ->
  exists pics,
    document' = extend_body document pics
    /\ Forall image_block pics /\ length pics <= 1.
Proof.
  unfold add_image. intros E.
  apply bind_Ret_inv in E as (i & _ & E).
  apply bind_Ret_inv in E as (src & _ & E).
  assert (Hnone : Ret document = Ret document' ->
    exists pics, document' = extend_body document pics
      /\ Forall image_block pics /\ length pics <= 1).
  { intros [= <-]. exists []. rewrite extend_body_nil.
    repeat split; [constructor | simpl; lia]. }
  destruct (truthy src); [|auto].
  apply bind_Ret_inv in E as (data & _ & E).
  destruct data as [data|]; auto.
  destruct (Nat.eqb (length data) 0); auto.
  destruct (embed_image_pictures document data w) as (pics & Hp & Hall & Hlen).
  rewrite Hp in E. injection E as <-. eauto.
Qed.

Lemma add_image_returns (document : Document) (d : pydict) (assets : assets_map)
    (w : spec_float) :
  image_shape_ok d = true ->
  exists document', add_image document (PDict d) assets w = Ret document'.
Proof.
  unfold image_shape_ok, add_image, py_get. intros Hshape. simpl bind.
  destruct (dict_get d (py "image")) as [[| | | | | |image]|]; simpl in *;
    try discriminate; eauto.
  unfold py_or.
  destruct (truthy (PDict image)) eqn:Etruthy; simpl; [|eauto].
  destruct (dict_get image (py "src")) as [[| | | |s| |]|]; simpl in *;
    try discriminate; eauto.
  destruct (negb (Nat.eqb (length s) 0)); [|eauto]. simpl.
  destruct (assets !! s) as [data|]; eauto.
  destruct (Nat.eqb (length data) 0); eauto.
  destruct (embed_image_pictures document data w) as (pics & Hp & _). eauto.
Qed.

Lemma topic_title_dict (d : pydict) :
  exists title, topic_title (PDict d) = Ret title /\ title <> [].
Proof.
  unfold topic_title. simpl. eexists. split; [reflexivity|].
  unfold sanitize_title. destruct (strip _); discriminate.
Qed.

End OneNode.

(** ** Whole trees *)

Section Tree.
Context {ext : Externals}.
Variable assets : assets_map.
Variable w : spec_float.

Lemma node_pictures_spec (topic : pyval) :
  Forall image_block (node_pictures topic assets w)
  /\ length (node_pictures topic assets w) <= 1.
Proof.
  unfold node_pictures.
  destruct (add_image new_document topic assets w) as [d| |] eqn:E;
    try (split; [constructor | simpl; lia]).
  apply add_image_pictures in E as (pics & -> & Hall & Hlen). now split.
Qed.

Lemma text_blocks_pictures (pics : list block) :
  Forall image_block pics -> text_blocks pics = [].
Proof.
  induction 1 as [|b pics Hb _ IH]; [reflexivity|].
  unfold text_blocks in *. simpl. now rewrite (image_block_not_text b Hb).
Qed.

Lemma no_field_pictures (pics : list block) :
  Forall image_block pics -> Forall (fun b => is_field b = false) pics.
Proof.
  intros Hall. eapply Forall_impl; [exact Hall|]. apply image_block_not_field.
Qed.

(** Readiness of a tree is readiness of its root and of its subtrees one
    level down. *)
Lemma sink_ready_unfold (topic : pyval) (level : Z) :
  sink_ready topic level
  = stack_left level && text_accepted (title_of topic)
    && forallb (fun c => sink_ready c (level + 1)%Z) (children_of topic).
Proof.
  unfold sink_ready at 1. rewrite subtree_unfold. cbn [forallb fst snd]. f_equal.
  induction (children_of topic) as [|c cs IH]; [reflexivity|].
  cbn [flat_map forallb]. rewrite forallb_app, IH. reflexivity.
Qed.

Lemma sink_ready_inv (topic : pyval) (level : Z) :
  sink_ready topic level = true ->
  stack_left level = true /\ text_accepted (title_of topic) = true
  /\ forallb (fun c => sink_ready c (level + 1)%Z) (children_of topic) = true.
Proof.
  rewrite sink_ready_unfold. intros H.
  apply andb_true_iff in H as (H & Hc). apply andb_true_iff in H as (Hs & Ht). auto.
Qed.

(** One call on a readable node: its text block, what its image part
    appends, then whatever the loop over its children appends. *)
Lemma add_topic_node_step (document : Document) (d : pydict) (children : list pyval)
    (level : Z) :
  iter_children (PDict d) = Ret children ->
  image_shape_ok d = true ->
  (1 <= level)%Z ->
  stack_left level = true ->
  text_accepted (title_of (PDict d)) = true ->
  add_topic document (PDict d) assets level w
  = rebase
      (extend_body document
         (node_block (PDict d) level :: node_pictures (PDict d) assets w))
      (add_children new_document children assets (level + 1)%Z w).
Proof.
  intros Hc Hshape Hlevel Hstack Htext. rewrite add_topic_unfold, Hstack.
  destruct (topic_title_dict d) as (title & Htitle & _).
  unfold node_block, node_pictures, title_of, is_leaf_node, children_of, add_children
    in Htext |- *.
  rewrite Htitle in Htext |- *. rewrite Hc. simpl.
  rewrite add_text_block_rule by assumption. simpl.
  rewrite add_image_rebase.
  destruct (add_image_returns new_document d assets w Hshape) as (d2 & Hd2).
  rewrite Hd2. simpl.
  rewrite foldM_rebase
    by (apply List.Forall_forall; intros c _ document0; apply add_topic_rebase).
  rewrite append_extend, extend_extend. reflexivity.
Qed.

Lemma add_children_Node (children : list pyval) (level : Z) :
  Forall (fun c => forall level document, (1 <= level)%Z ->
            sink_ready c level = true ->
            exists bs,
              add_topic document c assets level w = Ret (extend_body document bs)
              /\ text_blocks bs = expected_text (subtree c level)
              /\ Forall (fun b => is_field b = false) bs) children ->
  (1 <= level)%Z ->
  forallb (fun c => sink_ready c level) children = true ->
  forall document,
  exists bs,
    add_children document children assets level w = Ret (extend_body document bs)
    /\ text_blocks bs = expected_text (flat_map (fun c => subtree c level) children)
    /\ Forall (fun b => is_field b = false) bs.
Proof.
  intros Hall Hlevel. unfold add_children.
  induction Hall as [|c cs Hc _ IH]; intros Hready document; simpl.
  - exists []. rewrite extend_body_nil. repeat split; constructor.
  - cbn [forallb] in Hready. apply andb_true_iff in Hready as (Hrc & Hrcs).
    destruct (Hc level document Hlevel Hrc) as (bs1 & E1 & T1 & F1). rewrite E1. simpl.
    destruct (IH Hrcs (extend_body document bs1)) as (bs2 & E2 & T2 & F2). rewrite E2.
    exists (bs1 ++ bs2). rewrite extend_extend. split; [reflexivity|]. split.
    + unfold text_blocks, expected_text in *.
      rewrite List.filter_app, List.map_app. now rewrite T1, T2.
    + apply Forall_app. now split.
Qed.

(** On a node tree for which the stack and the sink are ready the
    projection returns; the text blocks it appended are those of the nodes
    of the tree, in tree order, and it appended no field. *)
Lemma add_topic_Node (topic : pyval) :
  Node topic ->
  forall level document, (1 <= level)%Z ->
    sink_ready topic level = true ->
    exists bs,
      add_topic document topic assets level w = Ret (extend_body document bs)
      /\ text_blocks bs = expected_text (subtree topic level)
      /\ Forall (fun b => is_field b = false) bs.
Proof.
  induction 1 as [d children Hc Hshape Hnodes IH] using Node_ind'.
  intros level document Hlevel Hready.
  apply sink_ready_inv in Hready as (Hstack & Haccept & Hrc).
  assert (Hco : children_of (PDict d) = children) by (unfold children_of; now rewrite Hc).
  rewrite Hco in Hrc.
  destruct (add_children_Node children (level + 1)%Z IH ltac:(lia) Hrc new_document)
    as (rest & Erest & Trest & Frest).
  destruct (node_pictures_spec (PDict d)) as (Hpics & _).
  exists (node_block (PDict d) level :: node_pictures (PDict d) assets w ++ rest).
  split; [|split].
  - rewrite (add_topic_node_step document d children level Hc Hshape Hlevel Hstack Haccept).
    rewrite Erest. unfold rebase. simpl. now rewrite extend_extend.
  - rewrite subtree_unfold. unfold children_of. rewrite Hc.
    unfold expected_text in *. cbn [List.map fst snd]. rewrite <- Trest.
    unfold text_blocks. cbn [List.filter].
    destruct (emission_rule_text (title_of (PDict d)) level (is_leaf_node (PDict d)))
      as (Htext & _).
    unfold node_block at 1. rewrite Htext. f_equal.
    rewrite List.filter_app.
    pose proof (text_blocks_pictures _ Hpics) as Hnone.
    unfold text_blocks in Hnone. now rewrite Hnone.
  - constructor.
    + unfold node_block, emission_rule. now destruct (_ || _).
    + apply Forall_app. split; [now apply no_field_pictures | exact Frest].
Qed.

End Tree.

(** ** The emission rule on node trees *)




(** The scenario A[B, C[D]]: Heading 1 "A", bullet "B" at a quarter
    inch, Heading 2 "C", bullet "D" at half an inch. *)
Example sample_tree_blocks :
  @add_topic sample_externals new_document sample_tree ∅ 1 float_6
  = Ret {| core_title := [];
           body := [Heading 1 (py "A");
                    Paragraph (py "B") (Some LIST_BULLET) (Some 228600%Z);
                    Heading 2 (py "C");
                    Paragraph (py "D") (Some LIST_BULLET) (Some 457200%Z)] |}.
Proof. vm_compute. reflexivity. Qed.

(** Below the ninth level the heading stays at 9 and the bullets keep
    their own indent. *)
Example deep_levels :
  outcome_map body
    (@add_topic sample_externals new_document (branch "C" [leaf "D"]) ∅ 12 float_6)
  = Ret [Heading 9 (py "C");
         Paragraph (py "D") (Some LIST_BULLET) (Some 2743200%Z)].
Proof. vm_compute. reflexivity. Qed.

(** Values outside the data model raise as the interpreter does: a topic
    that is no mapping, ["topics"] given as a list, a group that is a
    number, an image that is a string, an unhashable [src]. *)
Example ill_shaped_topics :
  let run t := @add_topic sample_externals new_document t ∅ 1 float_6 in
  run (PStr (py "A")) = Raise AttributeError
  /\ run (PDict [(py "topics", PList [leaf "B"])]) = Raise AttributeError
  /\ run (PDict [(py "topics", PDict [(py "g", PInt 3)])]) = Raise TypeError
  /\ run (PDict [(py "image", PStr (py "a.png"))]) = Raise AttributeError
  /\ run (PDict [(py "image", PDict [(py "src", PList [PInt 1])])]) = Raise TypeError.
Proof. vm_compute. repeat split. Qed.

(** C2, as the code has it: projecting from level 1 a node tree for
    which the stack and the sink are ready appends as many headings and
    bulleted paragraphs as the tree has nodes, the block of each node
    before those of its subtree and the children in [iter_children]
    order; each child is projected at the next level with the same assets
    and image width. *)
Theorem add_topic_block_count (ext : Externals) (document : Document)
    (topic : pyval) (assets : assets_map) (w : spec_float) :
  Node topic -> sink_ready topic 1 = true ->
  (exists bs,
      add_topic document topic assets 1 w = Ret (extend_body document bs)
      /\ text_blocks bs = expected_text (subtree topic 1)
      /\ length (text_blocks bs) = node_count topic)
  /\ (forall n level,
        subtree n level
        = (n, level) :: flat_map (fun c => subtree c (level + 1)%Z) (children_of n))
  /\ (forall level, (1 <= level)%Z ->
        stack_left level = true -> text_accepted (title_of topic) = true ->
        add_topic document topic assets level w
        = rebase
            (extend_body document
               (node_block topic level :: node_pictures topic assets w))
            (add_children new_document (children_of topic) assets (level + 1)%Z w)).
Proof.
  intros Hnode Hready. split; [|split].
  - destruct (add_topic_Node assets w topic Hnode 1%Z document ltac:(lia) Hready)
      as (bs & E & T & _).
    exists bs. split; [exact E|]. split; [exact T|].
    rewrite T. unfold expected_text, node_count. now rewrite length_map.
  - apply subtree_unfold.
  - intros level Hlevel Hstack Haccept. destruct Hnode as [d children Hc Hshape _].
    unfold children_of. rewrite Hc. now apply add_topic_node_step.
Qed.

Lemma add_topic_block_count_witness :
  Node sample_tree
  /\ @sink_ready sample_externals sample_tree 1 = true
  /\ exists bs,
       @add_topic sample_externals new_document sample_tree ∅ 1 float_6
       = Ret (extend_body new_document bs)
       /\ text_blocks bs = @expected_text sample_externals (subtree sample_tree 1)
       /\ length (text_blocks bs) = node_count sample_tree.
Proof.
  split; [node_tree|]. split; [reflexivity|].
  apply (add_topic_block_count sample_externals new_document sample_tree ∅ float_6);
    [node_tree | reflexivity].
Defined.

(** Without the proviso the count fails: the tree A[B, U+FFFF] is a node
    tree of three nodes, and projecting it raises when the sink refuses
    the title of the last one, so that no document comes back. *)
Lemma refused_child_counterexample :
  Node ffff_tree
  /\ node_count ffff_tree = 3
  /\ @add_topic sample_externals new_document ffff_tree ∅ 1 float_6 = Raise ValueError
  /\ ~ (exists bs,
          @add_topic sample_externals new_document ffff_tree ∅ 1 float_6
          = Ret (extend_body new_document bs)
          /\ length (text_blocks bs) = node_count ffff_tree).
Proof.
  split; [node_tree|]. split; [reflexivity|]. split; [vm_compute; reflexivity|].
  intros (bs & E & _). vm_compute in E. discriminate.
Qed.

(** ** Images that cannot be embedded *)

(** With a string reference the image part is a lookup followed by the
    guarded embedding. *)
Lemma add_image_src {ext : Externals} (document : Document) (d : pydict) (assets : assets_map)
    (w : spec_float) (src : pystr) :
  image_src d = Some src ->
  add_image document (PDict d) assets w
  = match assets !! src with
    | Some data =>
        if Nat.eqb (length data) 0 then Ret document
        else embed_image document data w
    | None => Ret document
    end.
Proof.
  unfold image_src, add_image, py_get. intros Hsrc. simpl bind.
  destruct (dict_get d (py "image")) as [[| | | | | |image]|]; try discriminate.
  simpl. unfold py_or.
  destruct (dict_get image (py "src")) as [[| | | |[|c s]| |]|] eqn:Esrc;
    try discriminate.
  injection Hsrc as <-.
  assert (Htruthy : truthy (PDict image) = true)
    by (destruct image; [discriminate|reflexivity]).
  rewrite Htruthy. simpl. rewrite Esrc. reflexivity.
Qed.





(** The four failures and the success, run on the sample resources. *)
Example image_cases :
  let run src := outcome_map body
    (@add_topic sample_externals new_document (PDict (pictured "T" src []))
       sample_assets 1 float_6) in
  run "resources/nope"%string = Ret [Heading 1 (py "T")]
  /\ run "resources/a.tiff"%string = Ret [Heading 1 (py "T")]
  /\ run "resources/bad"%string = Ret [Heading 1 (py "T")]
  /\ run "resources/tiny.gif"%string = Ret [Heading 1 (py "T"); Paragraph [] None None]
  /\ run "resources/ok.gif"%string
     = Ret [Heading 1 (py "T"); Picture [Byte.x47; Byte.x49; Byte.x46] float_6].
Proof. vm_compute. repeat split. Qed.

(** ** Titles *)




Example missing_title_blocks :
  let run t := outcome_map body
    (@add_topic sample_externals new_document t ∅ 1 float_6) in
  run (PDict []) = Ret [Heading 1 (py ".")]
  /\ run (PDict [(py "title", PNone)]) = Ret [Heading 1 (py ".")]
  /\ run (PDict [(py "title", PStr [])]) = Ret [Heading 1 (py ".")]
  /\ run (branch "R" [PDict []])
     = Ret [Heading 1 (py "R");
            Paragraph (py ".") (Some LIST_BULLET) (Some 228600%Z)].
Proof. vm_compute. repeat split. Qed.

(** ** Sanitization *)

Lemma lstrip_head (s : pystr) :
  lstrip s = [] \/ exists c r, lstrip s = c :: r /\ isspace c = false.
Proof.
  induction s as [|c s IH]; simpl; [now left|].
  destruct (isspace c) eqn:E; [exact IH|]. right. eauto.
Qed.

Lemma lstrip_nonspace (c : N) (r : pystr) :
  isspace c = false -> lstrip (c :: r) = c :: r.
Proof. intros E. simpl. now rewrite E. Qed.

Lemma lstrip_snoc (s : pystr) (c : N) :
  isspace c = false -> exists u, lstrip (s ++ [c]) = u ++ [c].
Proof.
  intros E. induction s as [|x s IH]; simpl.
  - rewrite E. now exists [].
  - destruct (isspace x); [exact IH|]. now exists (x :: s).
Qed.

Lemma lstrip_idem (s : pystr) : lstrip (lstrip s) = lstrip s.
Proof.
  destruct (lstrip_head s) as [->|(c & r & -> & E)]; [reflexivity|].
  now apply lstrip_nonspace.
Qed.

Lemma rstrip_head (c : N) (r : pystr) :
  isspace c = false -> exists r', rstrip (c :: r) = c :: r'.
Proof.
  intros E. unfold rstrip. simpl rev.
  destruct (lstrip_snoc (rev r) c E) as (u & ->).
  rewrite rev_app_distr. simpl. eauto.
Qed.

Lemma strip_idem (s : pystr) : strip (strip s) = strip s.
Proof.
  unfold strip.
  destruct (lstrip_head s) as [->|(c & r & -> & E)]; [reflexivity|].
  destruct (rstrip_head c r E) as (r' & Hr). rewrite Hr.
  rewrite (lstrip_nonspace c r' E). rewrite <- Hr.
  unfold rstrip. rewrite rev_involutive. now rewrite lstrip_idem.
Qed.

Lemma lstrip_Forall (P : N -> Prop) (s : pystr) : Forall P s -> Forall P (lstrip s).
Proof.
  induction 1 as [|c s Hc Hs IH]; simpl; [constructor|].
  destruct (isspace c); [exact IH | now constructor].
Qed.

Lemma strip_Forall (P : N -> Prop) (s : pystr) : Forall P s -> Forall P (strip s).
Proof.
  intros H. unfold strip, rstrip.
  apply Forall_rev, lstrip_Forall, Forall_rev, lstrip_Forall, H.
Qed.

Lemma lstrip_all_space (s : pystr) :
  Forall (fun c => isspace c = true) s -> lstrip s = [].
Proof. induction 1 as [|c s Hc _ IH]; simpl; [reflexivity|]. now rewrite Hc. Qed.

Lemma filter_keep_all (s : pystr) :
  Forall (fun c => keep_char c = true) s -> List.filter keep_char s = s.
Proof.
  induction 1 as [|c s Hc _ IH]; simpl; [reflexivity|]. now rewrite Hc, IH.
Qed.

Lemma filter_keep_Forall (s : pystr) :
  Forall (fun c => keep_char c = true) (List.filter keep_char s).
Proof.
  apply List.Forall_forall. intros c Hin. now apply List.filter_In in Hin.
Qed.

Lemma sanitize_title_nonempty (s : pystr) : sanitize_title s <> [].
Proof. unfold sanitize_title. destruct (strip _); discriminate. Qed.

Lemma sanitize_title_fixed (t : pystr) :
  t <> [] -> Forall (fun c => keep_char c = true) t -> strip t = t ->
  sanitize_title t = t.
Proof.
  intros Hne Hkeep Hstrip. unfold sanitize_title.
  rewrite (filter_keep_all t Hkeep), Hstrip. destruct t; congruence.
Qed.

Lemma sanitize_title_idem (s : pystr) :
  sanitize_title (sanitize_title s) = sanitize_title s.
Proof.
  unfold sanitize_title at 2 3.
  destruct (strip (List.filter keep_char s)) as [|c t] eqn:E; [reflexivity|].
  apply sanitize_title_fixed; [discriminate| |].
  - rewrite <- E. apply strip_Forall, filter_keep_Forall.
  - rewrite <- E. apply strip_idem.
Qed.

Lemma sanitize_title_control (s : pystr) :
  Forall (fun ch => (ch < 32)%N) s -> sanitize_title s = py ".".
Proof.
  intros Hctl. unfold sanitize_title, strip.
  rewrite lstrip_all_space; [reflexivity|].
  apply List.Forall_forall. intros c Hin.
  apply List.filter_In in Hin as (Hin & Hkeep).
  rewrite List.Forall_forall in Hctl. specialize (Hctl c Hin).
  unfold keep_char in Hkeep. unfold isspace.
  replace (32 <=? c)%N with false in Hkeep by (symmetry; apply N.leb_gt; lia).
  simpl in Hkeep.
  apply orb_true_iff in Hkeep as [Hkeep|Hkeep];
    [apply orb_true_iff in Hkeep as [Hkeep|Hkeep]|];
    apply N.eqb_eq in Hkeep; subst c; reflexivity.
Qed.

(** ** Every run of the projection *)

Section EveryRun.
Context {ext : Externals}.
Variable assets : assets_map.
Variable w : spec_float.

Lemma add_text_block_inv (document document' : Document) (title : pystr) (level : Z)
    (is_leaf : bool) :
  add_text_block document title level is_leaf = Ret document' ->
  exists b, document' = append_block document b
            /\ is_field b = false /\ is_text_block b = true /\ block_text b = title.
Proof.
  unfold add_text_block, add_heading, add_paragraph, set_left_indent.
  destruct (text_accepted title).
  - destruct ((level =? 1)%Z || negb is_leaf).
    + destruct (_ && _); [|discriminate]. intros [= <-]. eexists. repeat split.
    + simpl. destruct (left_indent_accepted _); simpl; intros [= <-]; eexists;
        repeat split.
  - destruct ((level =? 1)%Z || negb is_leaf); [|discriminate].
    now destruct (_ && _).
Qed.

Lemma foldM_appends {B : Type} (f : Document -> B -> outcome Document) (xs : list B) :
  Forall (fun x => forall document document', f document x = Ret document' ->
            exists bs, document' = extend_body document bs
                       /\ Forall projected_block bs) xs ->
  forall document document', foldM f xs document = Ret document' ->
    exists bs, document' = extend_body document bs /\ Forall projected_block bs.
Proof.
  induction 1 as [|x xs Hx _ IH]; intros document document'; simpl.
  - intros [= <-]. exists []. rewrite extend_body_nil. split; constructor.
  - intros E. apply bind_Ret_inv in E as (d1 & E1 & E2).
    apply Hx in E1 as (bs1 & -> & H1). apply IH in E2 as (bs2 & -> & H2).
    exists (bs1 ++ bs2). rewrite extend_extend. split; [reflexivity|].
    apply Forall_app. now split.
Qed.

(** Whenever [add_topic] returns, it has only appended blocks, none of
    them a field, none of them a text block with empty text. *)
Lemma add_topic_appends (n : nat) :
  forall topic document level document',
    pyval_size topic <= n ->
    add_topic document topic assets level w = Ret document' ->
    exists bs, document' = extend_body document bs /\ Forall projected_block bs.
Proof.
  induction n as [|n IH]; intros topic document level document' Hn E.
  { pose proof (pyval_size_pos topic). lia. }
  apply add_topic_Ret_inv in E as (_ & E).
  apply bind_Ret_inv in E as (title & Htitle & E).
  apply bind_Ret_inv in E as (children & Hc & E).
  apply bind_Ret_inv in E as (d1 & Hd1 & E).
  apply bind_Ret_inv in E as (d2 & Hd2 & E).
  apply add_text_block_inv in Hd1 as (b & -> & Hfield & Htext & Hbt).
  apply add_image_pictures in Hd2 as (pics & -> & Hpics & _).
  apply foldM_appends in E as (rest & -> & Hrest).
  - exists (b :: pics ++ rest).
    rewrite append_extend, !extend_extend. split; [reflexivity|].
    constructor.
    + split; [exact Hfield|]. left. split; [exact Htext|]. rewrite Hbt.
      unfold topic_title in Htitle. apply bind_Ret_inv in Htitle as (t & _ & [= <-]).
      apply sanitize_title_nonempty.
    + apply Forall_app. split; [|exact Hrest].
      eapply Forall_impl; [exact Hpics|]. intros b0 Hb0.
      split; [now apply image_block_not_field | now right].
  - eapply Forall_impl; [exact (iter_children_smaller _ _ Hc)|].
    simpl. intros c Hlt document0 document0' E0. eapply IH; [|exact E0]. lia.
Qed.

End EveryRun.

(** C4: sanitizing a sanitized title changes nothing; an empty title and
    a title of control characters only (below the space) give the single
    period; the result is never empty, so no title handed to the sink is:
    every block of a returned document that carries a title, heading or
    bulleted paragraph, has a text that is not empty, the other blocks
    being pictures and the empty paragraphs that rejected pictures
    leave. *)
Theorem sanitize_title_idempotent (ext : Externals) (raw_title : pystr) :
  sanitize_title (sanitize_title raw_title) = sanitize_title raw_title
  /\ sanitize_title [] = py "."
  /\ (Forall (fun ch => (ch < 32)%N) raw_title -> sanitize_title raw_title = py ".")
  /\ sanitize_title raw_title <> []
  /\ (forall topic title, topic_title topic = Ret title -> title <> [])
  /\ (forall document topic assets level w document',
        add_topic document topic assets level w = Ret document' ->
        exists bs, document' = extend_body document bs
                   /\ Forall projected_block bs).
Proof.
  split; [apply sanitize_title_idem|]. split; [reflexivity|].
  split; [apply sanitize_title_control|]. split; [apply sanitize_title_nonempty|].
  split.
  - intros topic title E. unfold topic_title in E.
    apply bind_Ret_inv in E as (t & _ & [= <-]). apply sanitize_title_nonempty.
  - intros document topic assets level w document' E.
    eapply add_topic_appends; [|exact E]. apply Nat.le_refl.
Qed.

Lemma sanitize_title_idempotent_witness :
  Forall (fun ch => (ch < 32)%N) [7; 9; 10; 27]%N
  /\ sanitize_title [7; 9; 10; 27]%N = py ".".
Proof.
  split; [repeat constructor|].
  apply (sanitize_title_idempotent sample_externals [7; 9; 10; 27]%N).
  repeat constructor.
Defined.

Example sanitize_title_samples :
  sanitize_title (py "  Plan" ++ [7%N] ++ py " A" ++ [10%N]) = py "Plan A"
  /\ sanitize_title (py "Plan A") = py "Plan A"
  /\ sanitize_title [9; 32; 13]%N = py "."
  /\ sanitize_title [127]%N = [127]%N.
Proof. vm_compute. repeat split. Qed.


(** ** Archive Reader *)

Lemma startswith_resources (name : pystr) :
  startswith name RESOURCES = true -> exists r, name = 114%N :: r.
Proof.
  change RESOURCES with (114%N :: py "esources/").
  destruct name as [|c r]; cbn [startswith]; [discriminate|].
  intros H. apply andb_true_iff in H as (H & _). apply N.eqb_eq in H. subst c. eauto.
Qed.

Lemma xap_not_resource (name p : pystr) :
  startswith name RESOURCES = true -> name <> XAP ++ p.
Proof.
  intros H E. apply startswith_resources in H as (r & ->).
  change XAP with (120%N :: py "ap:") in E. simpl in E. discriminate.
Qed.

(** The key pair of a resource in a mapping. *)
Lemma extract_fold (zf : ZipFile) (names : list pystr) :
  forall (acc m : assets_map),
    foldM (fun (mapping : assets_map) name =>
             if negb (startswith name RESOURCES) then Ret mapping
             else if endswith name (py "/") then Ret mapping
             else
               let* data := zf_read zf name in
               let mapping := <[name := data]> mapping in
               Ret (<[XAP ++ name := data]> mapping))
          names acc = Ret m ->
    forall p,
      startswith p RESOURCES = true -> endswith p (py "/") = false ->
      (In p names
       \/ exists data, zf_read zf p = Ret data
                       /\ acc !! p = Some data /\ acc !! (XAP ++ p) = Some data) ->
      exists data, zf_read zf p = Ret data
                   /\ m !! p = Some data /\ m !! (XAP ++ p) = Some data.
Proof.
  induction names as [|name names IH]; intros acc m E p Hres Hdir Hp; simpl in E.
  - injection E as <-. destruct Hp as [[]|Hp]. exact Hp.
  - apply bind_Ret_inv in E as (acc1 & E1 & E).
    apply (IH acc1 m E p Hres Hdir).
    destruct Hp as [[->|Hin]|(data & Hread & Hraw & Halias)]; [|now left|].
    + right. rewrite Hres, Hdir in E1. simpl in E1.
      apply bind_Ret_inv in E1 as (data & Hread & [= <-]).
      exists data. split; [exact Hread|]. split.
      * rewrite lookup_insert_ne by (symmetry; now apply xap_not_resource).
        apply lookup_insert_eq.
      * apply lookup_insert_eq.
    + right. exists data. split; [exact Hread|].
      destruct (negb (startswith name RESOURCES)) eqn:Hn;
        [injection E1 as <-; now split|].
      destruct (endswith name (py "/")); [injection E1 as <-; now split|].
      apply bind_Ret_inv in E1 as (data' & Hread' & [= <-]).
      apply negb_false_iff in Hn.
      destruct (decide (name = p)) as [->|Hne].
      * rewrite Hread in Hread'. injection Hread' as <-. split.
        -- rewrite lookup_insert_ne by (symmetry; now apply xap_not_resource).
           apply lookup_insert_eq.
        -- apply lookup_insert_eq.
      * split.
        -- rewrite lookup_insert_ne by (symmetry; now apply xap_not_resource).
           now rewrite lookup_insert_ne.
        -- rewrite lookup_insert_ne by (intros Heq; apply Hne, (app_inv_head XAP), Heq).
           rewrite lookup_insert_ne by (now apply xap_not_resource).
           exact Halias.
Qed.

(** C5: in the mapping [extract_resources] builds, every entry under
    ["resources/"] that is not a directory is found under its path and
    under ["xap:"] followed by its path, with the same bytes, those of the
    archive member. *)
Theorem resource_alias_lookup (zf : ZipFile) (mapping : assets_map) (p : pystr) :
  extract_resources zf = Ret mapping ->
  In p (namelist zf) ->
  startswith p RESOURCES = true -> endswith p (py "/") = false ->
  exists data,
    zf_read zf p = Ret data
    /\ mapping !! p = Some data /\ mapping !! (XAP ++ p) = Some data.
Proof.
  intros E Hin Hres Hdir.
  apply (extract_fold zf (namelist zf) ∅ mapping E p Hres Hdir). now left.
Qed.

Lemma resource_alias_lookup_witness :
  let m : assets_map :=
    <[py "xap:resources/a.png" := [Byte.x89; Byte.x50; Byte.x4e; Byte.x47]]>
    (<[py "resources/a.png" := [Byte.x89; Byte.x50; Byte.x4e; Byte.x47]]> ∅) in
  extract_resources sample_zip = Ret m
  /\ In (py "resources/a.png") (namelist sample_zip)
  /\ startswith (py "resources/a.png") RESOURCES = true
  /\ endswith (py "resources/a.png") (py "/") = false
  /\ exists data,
       zf_read sample_zip (py "resources/a.png") = Ret data
       /\ m !! py "resources/a.png" = Some data
       /\ m !! (XAP ++ py "resources/a.png") = Some data.
Proof.
  assert (E : extract_resources sample_zip
              = Ret (<[py "xap:resources/a.png" := [Byte.x89; Byte.x50; Byte.x4e; Byte.x47]]>
                    (<[py "resources/a.png" := [Byte.x89; Byte.x50; Byte.x4e; Byte.x47]]> ∅)))
    by reflexivity.
  assert (Hin : In (py "resources/a.png") (namelist sample_zip))
    by (right; right; left; reflexivity).
  split; [exact E|]. split; [exact Hin|]. split; [reflexivity|]. split; [reflexivity|].
  exact (resource_alias_lookup sample_zip _ (py "resources/a.png") E Hin eq_refl eq_refl).
Defined.

(** C6, as the code has it: when the file cannot be opened as a zip
    archive, or no entry name ends in ["content.json"],
    [load_from_content_json] raises nothing and returns the pair
    [(None, {})]; it raises on no input at all, so that [main] can go on
    to the fallback parser. *)
Theorem load_without_content_no_result (ext : Externals) (path : source_file) :
  (path = NotAZip
   \/ exists zf, path = Zip zf
                 /\ Forall (fun n => endswith n CONTENT_JSON = false) (namelist zf)) ->
  load_from_content_json path = Ret NO_RESULT
  /\ forall (other : source_file) (e : exn), load_from_content_json other <> Raise e.
Proof.
  intros Hpath. split.
  - destruct Hpath as [->|(zf & -> & Hnone)]; [reflexivity|].
    unfold load_from_content_json. simpl.
    replace (List.filter (fun n => endswith n CONTENT_JSON) (namelist zf)) with (@nil pystr);
      [reflexivity|].
    induction Hnone as [|n ns Hn _ IH]; simpl; [reflexivity|]. now rewrite Hn.
  - intros other e. unfold load_from_content_json.
    destruct (let* zf := open_zip other in _); discriminate.
Qed.

Lemma load_without_content_no_result_witness :
  (Zip legacy_zip = NotAZip
   \/ exists zf, Zip legacy_zip = Zip zf
                 /\ Forall (fun n => endswith n CONTENT_JSON = false) (namelist zf))
  /\ @load_from_content_json sample_externals (Zip legacy_zip) = Ret NO_RESULT.
Proof.
  assert (H : Zip legacy_zip = NotAZip
              \/ exists zf, Zip legacy_zip = Zip zf
                   /\ Forall (fun n => endswith n CONTENT_JSON = false) (namelist zf)).
  { right. exists legacy_zip. split; [reflexivity|]. repeat constructor. }
  split; [exact H|].
  exact (proj1 (load_without_content_no_result sample_externals (Zip legacy_zip) H)).
Defined.

(** The claim that the reader fails with an error is false on a file
    that is not a zip archive: opening it raises, and the reader returns
    the no-result pair. *)
Lemma load_failure_counterexample :
  open_zip NotAZip = Raise BadZipFile
  /\ @load_from_content_json sample_externals NotAZip = Ret NO_RESULT
  /\ ~ (exists e, @load_from_content_json sample_externals NotAZip = Raise e).
Proof.
  split; [reflexivity|]. split; [reflexivity|]. intros (e & E). discriminate E.
Qed.

(** ** Table of contents *)

Lemma projected_no_fields (bs : list block) :
  Forall projected_block bs -> count_fields bs = 0 /\ without_fields bs = bs.
Proof.
  unfold count_fields, without_fields.
  induction 1 as [|b bs (Hb & _) _ (IH1 & IH2)]; simpl; [now split|].
  rewrite Hb. simpl. split; [exact IH1 | now rewrite IH2].
Qed.

(** C8: with the table of contents suppressed the document has no field
    block; with it enabled the document is the same with one field
    paragraph, the [TOC] instruction for levels 1-3, in front: every
    other block is the same and in the same place. *)
Theorem toc_suppression (ext : Externals) (img_width : spec_float)
    (root_topic : pyval) (assets : assets_map) :
  build_document false img_width root_topic assets
  = outcome_map with_toc (build_document true img_width root_topic assets)
  /\ (forall d1,
        build_document true img_width root_topic assets = Ret d1 ->
        count_fields (body d1) = 0
        /\ build_document false img_width root_topic assets = Ret (with_toc d1)
        /\ body (with_toc d1) = FieldParagraph TOC_INSTR :: body d1
        /\ count_fields (body (with_toc d1)) = 1
        /\ without_fields (body (with_toc d1)) = body d1
        /\ core_title (with_toc d1) = core_title d1).
Proof.
  assert (Hmap : build_document false img_width root_topic assets
                 = outcome_map with_toc (build_document true img_width root_topic assets)).
  { unfold build_document.
    destruct (py_get root_topic (py "title") (PStr (py "XMind"))) as [t| |]; simpl;
      try reflexivity.
    unfold set_core_title.
    destruct (core_title_accepted (py_str t)); simpl; [|reflexivity].
    set (doc0 := {| core_title := py_str t; body := [] |}).
    rewrite (add_topic_rebase (add_toc doc0)), (add_topic_rebase doc0).
    destruct (add_topic new_document root_topic assets 1 _) as [dx| |]; reflexivity. }
  split; [exact Hmap|].
  intros d1 E. rewrite Hmap, E. simpl.
  assert (Hproj : Forall projected_block (body d1)).
  { unfold build_document in E. apply bind_Ret_inv in E as (t & _ & E).
    apply bind_Ret_inv in E as (d0 & E0 & E).
    unfold set_core_title in E0.
    destruct (core_title_accepted (py_str t)); [|discriminate].
    injection E0 as <-. simpl in E.
    apply (add_topic_appends assets _ _ _ _ _ _ (Nat.le_refl _)) in E as (bs & -> & Hbs).
    exact Hbs. }
  destruct (projected_no_fields _ Hproj) as (Hcount & Hwithout).
  unfold count_fields, without_fields in *. simpl. rewrite Hcount, Hwithout.
  repeat split.
Qed.

Lemma toc_suppression_witness :
  let d1 := {| core_title := py "A";
               body := [Heading 1 (py "A");
                        Paragraph (py "B") (Some LIST_BULLET) (Some 228600%Z);
                        Heading 2 (py "C");
                        Paragraph (py "D") (Some LIST_BULLET) (Some 457200%Z)] |} in
  @build_document sample_externals true float_6 sample_tree ∅ = Ret d1
  /\ @build_document sample_externals false float_6 sample_tree ∅ = Ret (with_toc d1).
Proof.
  assert (E : @build_document sample_externals true float_6 sample_tree ∅
              = Ret {| core_title := py "A";
                       body := [Heading 1 (py "A");
                                Paragraph (py "B") (Some LIST_BULLET) (Some 228600%Z);
                                Heading 2 (py "C");
                                Paragraph (py "D") (Some LIST_BULLET) (Some 457200%Z)] |})
    by (vm_compute; reflexivity).
  split; [exact E|].
  exact (proj1 (proj2 (proj2 (toc_suppression sample_externals float_6 sample_tree ∅) _ E))).
Defined.

(** * Further properties of the program *)

(** ** What sanitization leaves *)

Lemma lstrip_split (s : pystr) :
  exists pre, s = pre ++ lstrip s /\ Forall (fun c => isspace c = true) pre.
Proof.
  induction s as [|c s (pre & Hs & Hpre)]; simpl.
  - exists []. split; [reflexivity|constructor].
  - destruct (isspace c) eqn:E.
    + exists (c :: pre). split; [simpl; now f_equal | now constructor].
    + exists []. split; [reflexivity|constructor].
Qed.

Lemma strip_split (s : pystr) :
  exists pre post,
    s = pre ++ strip s ++ post
    /\ Forall (fun c => isspace c = true) pre
    /\ Forall (fun c => isspace c = true) post.
Proof.
  destruct (lstrip_split s) as (pre & Hs & Hpre).
  destruct (lstrip_split (rev (lstrip s))) as (post & Hr & Hpost).
  exists pre, (rev post). split; [|split; [exact Hpre | now apply Forall_rev]].
  unfold strip, rstrip. rewrite <- rev_app_distr, <- Hr, rev_involutive. exact Hs.
Qed.

Lemma strip_ends (s : pystr) :
  from_option isspace false (head (strip s)) = false
  /\ from_option isspace false (last (strip s)) = false.
Proof.
  unfold strip.
  destruct (lstrip_head s) as [->|(c & r & -> & E)]; [now split|].
  split.
  - destruct (rstrip_head c r E) as (r' & ->). exact E.
  - unfold rstrip.
    destruct (lstrip_head (rev (c :: r))) as [->|(c' & r' & -> & E')]; [reflexivity|].
    simpl rev. rewrite last_snoc. exact E'.
Qed.

(** X1: whatever the raw title, every character of the sanitized title
    is at or above the space or a tab, newline or carriage return, and
    the title neither begins nor ends with white space. *)
Theorem sanitize_title_clean (raw_title : pystr) :
  Forall (fun c => keep_char c = true) (sanitize_title raw_title)
  /\ from_option isspace false (head (sanitize_title raw_title)) = false
  /\ from_option isspace false (last (sanitize_title raw_title)) = false.
Proof.
  unfold sanitize_title.
  destruct (strip (List.filter keep_char raw_title)) as [|c t] eqn:E.
  - split; [repeat constructor | split; reflexivity].
  - rewrite <- E. split; [apply strip_Forall, filter_keep_Forall | apply strip_ends].
Qed.

(** X2: sanitization only drops characters: the kept characters of the
    raw title are the sanitized title between two runs of white space, and
    the period is substituted only when every kept character is white
    space. *)
Theorem sanitize_title_trims (raw_title : pystr) :
  (sanitize_title raw_title = py "."
   /\ Forall (fun c => isspace c = true) (List.filter keep_char raw_title))
  \/ (exists pre post,
        List.filter keep_char raw_title = pre ++ sanitize_title raw_title ++ post
        /\ Forall (fun c => isspace c = true) pre
        /\ Forall (fun c => isspace c = true) post).
Proof.
  destruct (strip_split (List.filter keep_char raw_title)) as (pre & post & Hs & Hpre & Hpost).
  unfold sanitize_title.
  destruct (strip (List.filter keep_char raw_title)) as [|c t] eqn:E.
  - left. split; [reflexivity|]. rewrite Hs. simpl. apply Forall_app. now split.
  - right. exists pre, post. now split.
Qed.

(** ** The image part, case by case *)

Section ImagePart.
Context {ext : Externals}.

Lemma add_image_readable_returns (document : Document) (d : pydict)
    (assets : assets_map) (w : spec_float) :
  image_readable d = true ->
  exists document', add_image document (PDict d) assets w = Ret document'.
Proof.
  unfold image_readable, add_image, py_get. intros Hshape. simpl bind.
  destruct (dict_get d (py "image")) as [i|]; simpl; [|eauto].
  unfold py_or. destruct (truthy i) eqn:Ei; [|simpl; eauto].
  destruct i as [| | | | | |image]; try discriminate. simpl.
  destruct (dict_get image (py "src")) as [src|]; simpl; [|eauto].
  destruct (truthy src) eqn:Es; [|eauto].
  assert (Hget : exists data, assets_get assets src = Ret data).
  { destruct src as [| | | | |[|x l]|[|x l]]; simpl; eauto; discriminate. }
  destruct Hget as (data & ->). simpl.
  destruct data as [data|]; [|eauto].
  destruct (Nat.eqb (length data) 0); [eauto|].
  destruct (embed_image_pictures document data w) as (pics & Hp & _). eauto.
Qed.

Lemma add_image_returns_readable (document document' : Document) (d : pydict)
    (assets : assets_map) (w : spec_float) :
  add_image document (PDict d) assets w = Ret document' ->
  image_readable d = true.
Proof.
  unfold image_readable, add_image, py_get. simpl bind.
  destruct (dict_get d (py "image")) as [i|]; simpl; [|reflexivity].
  unfold py_or. destruct (truthy i) eqn:Ei; [|reflexivity].
  destruct i as [| | | | | |image]; simpl; try discriminate.
  destruct (dict_get image (py "src")) as [src|]; simpl; [|reflexivity].
  destruct src as [| | | | |[|x l]|[|x l]]; simpl; try reflexivity; discriminate.
Qed.

End ImagePart.

(** ** Trees the projection walks to the end *)

Lemma Walkable_ind' (P : pyval -> Prop) :
  (forall d children,
      iter_children (PDict d) = Ret children ->
      image_readable d = true ->
      Forall Walkable children -> Forall P children -> P (PDict d)) ->
  forall topic, Walkable topic -> P topic.
Proof.
  intros step. fix IH 2. intros topic [d children Hc Hi Hall].
  apply (step d children Hc Hi Hall).
  clear Hc. revert children Hall. fix IHall 2.
  intros children [|c cs Hn Hcs]; constructor; [apply IH, Hn | apply IHall, Hcs].
Qed.

Lemma foldM_Ret_each {A B : Type} (f : A -> B -> outcome A) (xs : list B) :
  forall acc r, foldM f xs acc = Ret r ->
    Forall (fun x => exists a a', f a x = Ret a') xs.
Proof.
  induction xs as [|x xs IH]; intros acc r E; simpl in E; [constructor|].
  apply bind_Ret_inv in E as (a' & E1 & E2).
  constructor; [eauto | eapply IH, E2].
Qed.

Section Walk.
Context {ext : Externals}.
Variable assets : assets_map.
Variable w : spec_float.

Lemma expected_body_app (xs ys : list (pyval * Z)) :
  expected_body assets w (xs ++ ys)
  = expected_body assets w xs ++ expected_body assets w ys.
Proof. unfold expected_body. apply flat_map_app. Qed.

Lemma add_topic_walk_step (document : Document) (d : pydict) (children : list pyval)
    (level : Z) :
  iter_children (PDict d) = Ret children ->
  image_readable d = true ->
  (1 <= level)%Z ->
  stack_left level = true ->
  text_accepted (title_of (PDict d)) = true ->
  add_topic document (PDict d) assets level w
  = rebase
      (extend_body document
         (node_block (PDict d) level :: node_pictures (PDict d) assets w))
      (add_children new_document children assets (level + 1)%Z w).
Proof.
  intros Hc Hshape Hlevel Hstack Haccept. rewrite add_topic_unfold, Hstack.
  destruct (topic_title_dict d) as (title & Htitle & _).
  unfold node_block, node_pictures, title_of, is_leaf_node, children_of, add_children
    in Haccept |- *.
  rewrite Htitle in Haccept |- *. rewrite Hc. simpl.
  rewrite add_text_block_rule by assumption. simpl.
  rewrite add_image_rebase.
  destruct (add_image_readable_returns new_document d assets w Hshape) as (d2 & Hd2).
  rewrite Hd2. simpl.
  rewrite foldM_rebase
    by (apply List.Forall_forall; intros c _ document0; apply add_topic_rebase).
  rewrite append_extend, extend_extend. reflexivity.
Qed.

Lemma add_children_walk (children : list pyval) (level : Z) :
  Forall (fun c => forall level document, (1 <= level)%Z ->
            sink_ready c level = true ->
            add_topic document c assets level w
            = Ret (extend_body document (expected_body assets w (subtree c level))))
         children ->
  (1 <= level)%Z ->
  forallb (fun c => sink_ready c level) children = true ->
  forall document,
    add_children document children assets level w
    = Ret (extend_body document
             (expected_body assets w (flat_map (fun c => subtree c level) children))).
Proof.
  intros Hall Hlevel. unfold add_children.
  induction Hall as [|c cs Hc _ IH]; intros Hready document; simpl.
  - now rewrite extend_body_nil.
  - cbn [forallb] in Hready. apply andb_true_iff in Hready as (Hrc & Hrcs).
    rewrite (Hc level document Hlevel Hrc). simpl. rewrite (IH Hrcs).
    now rewrite extend_extend, expected_body_app.
Qed.

Lemma add_topic_Walkable (topic : pyval) :
  Walkable topic ->
  forall level document, (1 <= level)%Z ->
    sink_ready topic level = true ->
    add_topic document topic assets level w
    = Ret (extend_body document (expected_body assets w (subtree topic level))).
Proof.
  induction 1 as [d children Hc Hshape Hwalk IH] using Walkable_ind'.
  intros level document Hlevel Hready.
  apply sink_ready_inv in Hready as (Hstack & Haccept & Hrc).
  assert (Hco : children_of (PDict d) = children) by (unfold children_of; now rewrite Hc).
  rewrite Hco in Hrc.
  rewrite (add_topic_walk_step document d children level Hc Hshape Hlevel Hstack Haccept).
  rewrite (add_children_walk children (level + 1)%Z IH ltac:(lia) Hrc new_document).
  rewrite subtree_unfold, Hco.
  unfold rebase. cbn [outcome_map body extend_body new_document app].
  unfold extend_body. cbn [core_title body]. do 2 f_equal.
  rewrite <- app_assoc. reflexivity.
Qed.

(** A call that returns has walked a tree whose every node found stack
    left and a sink that took its title. *)
Lemma add_topic_returns_Walkable (n : nat) :
  forall topic document level document',
    pyval_size topic <= n ->
    add_topic document topic assets level w = Ret document' ->
    Walkable topic /\ sink_ready topic level = true.
Proof.
  induction n as [|n IH]; intros topic document level document' Hn E.
  { pose proof (pyval_size_pos topic). lia. }
  apply add_topic_Ret_inv in E as (Hstack & E).
  apply bind_Ret_inv in E as (title & Htitle & E).
  apply bind_Ret_inv in E as (children & Hc & E).
  apply bind_Ret_inv in E as (d1 & Hd1 & E).
  apply bind_Ret_inv in E as (d2 & Hd2 & E).
  destruct topic as [| | | | | |d]; try discriminate.
  apply add_image_returns_readable in Hd2.
  assert (Haccept : text_accepted title = true).
  { destruct (text_accepted title) eqn:Ea; [reflexivity|].
    rewrite add_text_block_refused in Hd1 by exact Ea. discriminate. }
  apply foldM_Ret_each in E.
  pose proof (iter_children_smaller _ _ Hc) as Hsmall.
  rewrite List.Forall_forall in E, Hsmall.
  assert (Hsub : forall c, In c children ->
            Walkable c /\ sink_ready c (level + 1)%Z = true).
  { intros c Hin. destruct (E c Hin) as (a & a' & Ea).
    specialize (Hsmall c Hin). cbv beta in Hsmall.
    eapply IH; [|exact Ea]. lia. }
  split.
  - apply (Walk_topic d children Hc Hd2).
    apply List.Forall_forall. intros c Hin. now apply Hsub.
  - rewrite sink_ready_unfold. unfold title_of, children_of.
    rewrite Htitle, Hc, Hstack, Haccept. cbn [andb].
    apply forallb_forall. intros c Hin. now apply Hsub.
Qed.

End Walk.



(** X4: at level >= 1 [add_topic] returns exactly on the trees that can
    be walked and for which the stack and the sink are ready: every topic
    reached is a mapping, its children can be listed, its image part is
    readable, there is stack left at its level and the sink takes its
    title; on every other input it raises. *)
Theorem add_topic_returns_iff (ext : Externals) (document : Document) (topic : pyval)
    (assets : assets_map) (level : Z) (w : spec_float) :
  (1 <= level)%Z ->
  ((exists document', add_topic document topic assets level w = Ret document')
   <-> Walkable topic /\ sink_ready topic level = true)
  /\ ((exists e, add_topic document topic assets level w = Raise e)
      <-> ~ (Walkable topic /\ sink_ready topic level = true)).
Proof.
  intros Hlevel.
  assert (Hiff : (exists document', add_topic document topic assets level w = Ret document')
                 <-> Walkable topic /\ sink_ready topic level = true).
  { split.
    - intros (document' & E).
      eapply add_topic_returns_Walkable; [|exact E]. apply Nat.le_refl.
    - intros (Hwalk & Hready). eexists. now apply add_topic_Walkable. }
  split; [exact Hiff|].
  pose proof (finished_add_topic document topic assets level w) as Hfin.
  split.
  - intros (e & E) Hwalk. apply Hiff in Hwalk as (document' & E'). congruence.
  - intros Hnot. destruct (add_topic document topic assets level w) as [d|e|] eqn:E.
    + destruct Hnot. apply Hiff. eauto.
    + eauto.
    + now destruct Hfin.
Qed.

Lemma add_topic_returns_iff_witness :
  (1 <= 1)%Z
  /\ ((exists e,
         @add_topic sample_externals new_document ffff_tree ∅ 1 float_6 = Raise e)
      <-> ~ (Walkable ffff_tree /\ @sink_ready sample_externals ffff_tree 1 = true)).
Proof.
  split; [lia|].
  apply (add_topic_returns_iff sample_externals new_document ffff_tree ∅ 1 float_6).
  lia.
Defined.

Example unwalkable_topics :
  ~ Walkable (PDict [(py "topics", PList [leaf "B"])])
  /\ Walkable (PDict [(py "image", PDict [(py "src", PInt 7)])]).
Proof.
  split; [|node_tree].
  intros H. inversion H as [d children Hc Hi Hall Heq]. discriminate Hc.
Qed.

(** ** Text does not depend on the resources *)

Lemma document_text_extend (document : Document) (bs : list block) :
  document_text (extend_body document bs) = document_text document ++ text_blocks bs.
Proof. unfold document_text, text_blocks. simpl. apply List.filter_app. Qed.

Lemma document_text_rebase (document : Document) (o : outcome Document) :
  outcome_map document_text (rebase document o)
  = outcome_map (fun t => document_text document ++ t) (outcome_map document_text o).
Proof.
  destruct o as [d| |]; simpl; try reflexivity. now rewrite document_text_extend.
Qed.

Lemma foldM_text_indep {B : Type} (f g : Document -> B -> outcome Document)
    (xs : list B) :
  (forall x document, f document x = rebase document (f new_document x)) ->
  (forall x document, g document x = rebase document (g new_document x)) ->
  Forall (fun x => outcome_map document_text (f new_document x)
                   = outcome_map document_text (g new_document x)) xs ->
  outcome_map document_text (foldM f xs new_document)
  = outcome_map document_text (foldM g xs new_document).
Proof.
  intros Hf Hg. induction 1 as [|x xs Hx Hxs IH]; simpl; [reflexivity|].
  destruct (f new_document x) as [d1| |], (g new_document x) as [d2| |];
    simpl in Hx |- *; try discriminate; try exact Hx; try reflexivity.
  injection Hx as Hx.
  rewrite (foldM_rebase f xs) by (apply List.Forall_forall; intros; apply Hf).
  rewrite (foldM_rebase g xs) by (apply List.Forall_forall; intros; apply Hg).
  rewrite !document_text_rebase, IH, Hx. reflexivity.
Qed.

Section TextIndependence.
Context {ext : Externals}.

Lemma add_image_indep (document : Document) (topic : pyval)
    (assets1 assets2 : assets_map) (w1 w2 : spec_float) :
  outcome_map document_text (add_image document topic assets1 w1)
  = outcome_map document_text (add_image document topic assets2 w2).
Proof.
  assert (Hnone : forall o : outcome Document,
             (exists pics, o = Ret (extend_body document pics)
                           /\ Forall image_block pics) ->
             outcome_map document_text o = Ret (document_text document)).
  { intros o (pics & -> & Hp). simpl. rewrite document_text_extend.
    now rewrite (text_blocks_pictures pics Hp), app_nil_r. }
  assert (Hsame : forall (assets : assets_map) (w : spec_float) (s : pystr),
             outcome_map document_text
               (match assets !! s with
                | Some data => if Nat.eqb (length data) 0 then Ret document
                               else embed_image document data w
                | None => Ret document
                end) = Ret (document_text document)).
  { intros assets w s. apply Hnone.
    destruct (assets !! s) as [data|];
      [destruct (Nat.eqb (length data) 0)|];
      try (exists []; rewrite extend_body_nil; split; [reflexivity|constructor]).
    destruct (embed_image_pictures document data w) as (pics & Hp & Hall & _). eauto. }
  unfold add_image.
  destruct (py_get topic (py "image") PNone) as [i| |]; simpl; try reflexivity.
  destruct (py_get (py_or i (PDict [])) (py "src") PNone) as [src| |]; simpl;
    try reflexivity.
  destruct (truthy src); [|reflexivity].
  destruct src; simpl; try reflexivity.
  now rewrite !Hsame.
Qed.

Lemma add_topic_fuel_indep (fuel : nat) :
  forall (topic : pyval) (level : Z) (assets1 assets2 : assets_map)
         (w1 w2 : spec_float),
    outcome_map document_text (add_topic_fuel fuel new_document topic assets1 level w1)
    = outcome_map document_text (add_topic_fuel fuel new_document topic assets2 level w2).
Proof.
  induction fuel as [|fuel IH]; intros topic level assets1 assets2 w1 w2; [reflexivity|].
  simpl.
  destruct (stack_left level); [|reflexivity].
  destruct (topic_title topic) as [title| |]; simpl; try reflexivity.
  destruct (iter_children topic) as [children| |]; simpl; try reflexivity.
  destruct (add_text_block new_document title level _) as [d1| |]; simpl; try reflexivity.
  pose proof (add_image_indep d1 topic assets1 assets2 w1 w2) as Himg.
  destruct (add_image d1 topic assets1 w1) as [x1| |] eqn:E1,
           (add_image d1 topic assets2 w2) as [x2| |] eqn:E2;
    simpl in Himg |- *; try discriminate; try exact Himg; try reflexivity.
  injection Himg as Himg.
  rewrite (foldM_rebase _ children) by
    (apply List.Forall_forall; intros; apply add_topic_fuel_rebase).
  rewrite (foldM_rebase (fun document child =>
             add_topic_fuel fuel document child assets2 (level + 1)%Z w2) children) by
    (apply List.Forall_forall; intros; apply add_topic_fuel_rebase).
  rewrite !document_text_rebase, Himg. f_equal.
  apply foldM_text_indep.
  - intros; apply add_topic_fuel_rebase.
  - intros; apply add_topic_fuel_rebase.
  - apply List.Forall_forall. intros c _. apply IH.
Qed.

End TextIndependence.

(** X5: the titles of the projection do not depend on the resources or
    on the image width: with two resource mappings and two widths,
    [add_topic] raises the same exception or returns documents with the
    same headings and bulleted paragraphs in the same order.  Only the
    pictures, and the empty paragraphs that rejected pictures leave,
    depend on them. *)
Theorem add_topic_text_independent (ext : Externals) (document : Document)
    (topic : pyval) (level : Z) (assets1 assets2 : assets_map) (w1 w2 : spec_float) :
  outcome_map document_text (add_topic document topic assets1 level w1)
  = outcome_map document_text (add_topic document topic assets2 level w2).
Proof.
  rewrite (add_topic_rebase document topic assets1),
          (add_topic_rebase document topic assets2).
  rewrite !document_text_rebase. f_equal. apply add_topic_fuel_indep.
Qed.

(** ** What every appended block looks like *)

Lemma foldM_appends_such {B : Type} (Q : block -> Prop)
    (f : Document -> B -> outcome Document) (xs : list B) :
  Forall (fun x => forall document document', f document x = Ret document' ->
            exists bs, document' = extend_body document bs /\ Forall Q bs) xs ->
  forall document document', foldM f xs document = Ret document' ->
    exists bs, document' = extend_body document bs /\ Forall Q bs.
Proof.
  induction 1 as [|x xs Hx _ IH]; intros document document'; simpl.
  - intros [= <-]. exists []. rewrite extend_body_nil. split; constructor.
  - intros E. apply bind_Ret_inv in E as (d1 & E1 & E2).
    apply Hx in E1 as (bs1 & -> & H1). apply IH in E2 as (bs2 & -> & H2).
    exists (bs1 ++ bs2). rewrite extend_extend. split; [reflexivity|].
    apply Forall_app. now split.
Qed.

Section BlocksAt.
Context {ext : Externals}.
Variable assets : assets_map.
Variable w : spec_float.
Variable L : Z -> Prop.
Variable P : Z -> block -> Prop.
Hypothesis L_next : forall l, L l -> L (l + 1)%Z.
Hypothesis text_at :
  forall document title level is_leaf document',
    L level -> add_text_block document title level is_leaf = Ret document' ->
    exists b, document' = append_block document b /\ P level b.
Hypothesis image_at :
  forall topic document document' level,
    add_image document topic assets w = Ret document' ->
    exists pics, document' = extend_body document pics /\ Forall (P level) pics.

(** An invariant of the blocks by level carries over every run. *)
Lemma add_topic_blocks_at (n : nat) :
  forall topic document level document',
    pyval_size topic <= n -> L level ->
    add_topic document topic assets level w = Ret document' ->
    exists bs, document' = extend_body document bs
               /\ Forall (fun b => exists l, (level <= l)%Z /\ P l b) bs.
Proof.
  induction n as [|n IH]; intros topic document level document' Hn Hlevel E.
  { pose proof (pyval_size_pos topic). lia. }
  apply add_topic_Ret_inv in E as (_ & E).
  apply bind_Ret_inv in E as (title & Htitle & E).
  apply bind_Ret_inv in E as (children & Hc & E).
  apply bind_Ret_inv in E as (d1 & Hd1 & E).
  apply bind_Ret_inv in E as (d2 & Hd2 & E).
  apply (text_at _ _ _ _ _ Hlevel) in Hd1 as (b & -> & Hb).
  apply (image_at _ _ _ level) in Hd2 as (pics & -> & Hpics).
  apply (foldM_appends_such (fun b => exists l, (level <= l)%Z /\ P l b)) in E
    as (rest & -> & Hrest).
  - exists (b :: pics ++ rest).
    rewrite append_extend, !extend_extend. split; [reflexivity|].
    constructor; [exists level; split; [lia|exact Hb]|].
    apply Forall_app. split; [|exact Hrest].
    eapply Forall_impl; [exact Hpics|]. intros x Hx. exists level. split; [lia|exact Hx].
  - pose proof (iter_children_smaller _ _ Hc) as Hsmall.
    rewrite List.Forall_forall in Hsmall. apply List.Forall_forall.
    intros c Hin document0 document0' E0.
    specialize (Hsmall c Hin). cbv beta in Hsmall.
    destruct (IH c document0 (level + 1)%Z document0' ltac:(lia) (L_next _ Hlevel) E0)
      as (bs & -> & Hbs).
    exists bs. split; [reflexivity|].
    eapply Forall_impl; [exact Hbs|]. intros x (l & Hl & Hx). exists l. split; [lia|exact Hx].
Qed.

End BlocksAt.

Section Provenance.
Context {ext : Externals}.

Lemma embed_image_provenance (document document' : Document) (assets : assets_map)
    (w : spec_float) (key : pystr) (data : bytes) :
  assets !! key = Some data -> data <> [] ->
  embed_image document data w = Ret document' ->
  exists pics, document' = extend_body document pics
               /\ Forall (picture_from assets w) pics.
Proof.
  intros Hkey Hne. unfold embed_image, add_picture.
  assert (Hnone : Ret document = Ret document' ->
            exists pics, document' = extend_body document pics
                         /\ Forall (picture_from assets w) pics).
  { intros [= <-]. exists []. rewrite extend_body_nil. split; constructor. }
  destruct (imghdr_what data) as [kind|] eqn:Ekind; simpl; [|exact Hnone].
  destruct (kind_supported kind) eqn:Esup; [|exact Hnone].
  destruct (picture_accepted data w) eqn:Eacc; simpl.
  2:{ destruct (Inches_fails w); simpl; [exact Hnone|].
      intros [= <-]. exists [EMPTY_PARAGRAPH]. split; [reflexivity|].
      repeat constructor. }
  intros [= <-]. exists [Picture data w]. split; [reflexivity|].
  constructor; [|constructor]. simpl. repeat split; eauto.
  destruct kind as [k|]; [|discriminate]. exists k. split; [exact Ekind|].
  now apply bool_decide_eq_true in Esup.
Qed.

Lemma add_image_provenance (topic : pyval) (document document' : Document)
    (assets : assets_map) (w : spec_float) :
  add_image document topic assets w = Ret document' ->
  exists pics, document' = extend_body document pics
               /\ Forall (picture_from assets w) pics.
Proof.
  unfold add_image. intros E.
  apply bind_Ret_inv in E as (i & _ & E).
  apply bind_Ret_inv in E as (src & _ & E).
  assert (Hnone : Ret document = Ret document' ->
            exists pics, document' = extend_body document pics
                         /\ Forall (picture_from assets w) pics).
  { intros [= <-]. exists []. rewrite extend_body_nil. split; constructor. }
  destruct (truthy src); [|auto].
  apply bind_Ret_inv in E as (data & Hget & E).
  destruct data as [data|]; [|auto].
  destruct (Nat.eqb (length data) 0) eqn:Elen; [auto|].
  destruct src; simpl in Hget; try discriminate. injection Hget as Hget.
  eapply embed_image_provenance; [exact Hget| |exact E].
  intros ->. discriminate.
Qed.

Lemma add_image_no_assets (topic : pyval) (document document' : Document)
    (w : spec_float) :
  add_image document topic ∅ w = Ret document' -> document' = document.
Proof.
  unfold add_image. intros E.
  apply bind_Ret_inv in E as (i & _ & E).
  apply bind_Ret_inv in E as (src & _ & E).
  destruct (truthy src); [|now injection E].
  apply bind_Ret_inv in E as (data & Hget & E).
  assert (Hdata : data = None).
  { destruct src; simpl in Hget; try discriminate; injection Hget as <-;
      first [reflexivity | apply lookup_empty]. }
  subst data. now injection E.
Qed.

End Provenance.

Lemma Inches_quarter_emu (q : Z) : Inches_quarter q = (228600 * q)%Z.
Proof.
  unfold Inches_quarter, EMU_PER_INCH.
  replace (q * 914400)%Z with (228600 * q * 4)%Z by lia.
  apply Z.quot_mul. lia.
Qed.

Section Invariants.
Context {ext : Externals}.
Variable assets : assets_map.
Variable w : spec_float.

Lemma add_topic_provenance (topic : pyval) (document document' : Document) (level : Z) :
  add_topic document topic assets level w = Ret document' ->
  exists bs, document' = extend_body document bs
             /\ Forall (picture_from assets w) bs.
Proof.
  intros E.
  destruct (add_topic_blocks_at assets w (fun _ => True) (fun _ => picture_from assets w))
    with (n := pyval_size topic) (topic := topic) (document := document)
         (level := level) (document' := document') as (bs & -> & Hbs); auto.
  - intros d title l leaf d' _ Ht.
    apply add_text_block_inv in Ht as (b & -> & _ & Htext & _).
    exists b. split; [reflexivity|]. destruct b; try discriminate; exact I.
  - intros t d d' _ Hi. exact (add_image_provenance t d d' assets w Hi).
  - exists bs. split; [reflexivity|].
    eapply Forall_impl; [exact Hbs|]. now intros b (_ & _ & Hb).
Qed.

Lemma add_topic_levels (topic : pyval) (document document' : Document) (level : Z) :
  (1 <= level)%Z ->
  add_topic document topic assets level w = Ret document' ->
  exists bs, document' = extend_body document bs
             /\ Forall (fun b => exists l, (level <= l)%Z /\ level_block l b) bs.
Proof.
  intros Hlevel E.
  apply (add_topic_blocks_at assets w (fun l => (1 <= l)%Z) level_block)
    with (n := pyval_size topic) (topic := topic); auto.
  - intros; lia.
  - intros d title l leaf d' Hl Ht.
    destruct (text_accepted title) eqn:Eaccept;
      [|rewrite add_text_block_refused in Ht by exact Eaccept; discriminate].
    rewrite add_text_block_rule in Ht by assumption. injection Ht as <-.
    eexists. split; [reflexivity|]. unfold emission_rule.
    destruct ((l =? 1)%Z || negb leaf) eqn:Erule; simpl.
    + split; [reflexivity|lia].
    + apply orb_false_iff in Erule as (Hne & _). apply Z.eqb_neq in Hne.
      left. split; [reflexivity|]. split; [lia|].
      rewrite Inches_quarter_emu. destruct (left_indent_accepted _); auto.
  - intros t d d' l Hi. apply add_image_pictures in Hi as (pics & -> & Hp & _).
    exists pics. split; [reflexivity|].
    eapply Forall_impl; [exact Hp|].
    intros b [Hb| ->]; [destruct b; try discriminate; exact I | now right].
Qed.

Lemma add_topic_no_assets (topic : pyval) (document document' : Document) (level : Z) :
  add_topic document topic ∅ level w = Ret document' ->
  exists bs, document' = extend_body document bs
             /\ Forall (fun b => is_text_block b = true) bs.
Proof.
  intros E.
  destruct (add_topic_blocks_at ∅ w (fun _ => True) (fun _ b => is_text_block b = true))
    with (n := pyval_size topic) (topic := topic) (document := document)
         (level := level) (document' := document') as (bs & -> & Hbs); auto.
  - intros d title l leaf d' _ Ht.
    apply add_text_block_inv in Ht as (b & -> & _ & Htext & _). eauto.
  - intros t d d' _ Hi. apply add_image_no_assets in Hi as ->.
    exists []. rewrite extend_body_nil. split; constructor.
  - exists bs. split; [reflexivity|].
    eapply Forall_impl; [exact Hbs|]. now intros b (_ & _ & Hb).
Qed.

End Invariants.

(** X6: an image reference whose resource is in the mapping, is not empty,
    is sniffed as one of the supported kinds and is accepted by the sink is
    embedded: the image part appends one picture, of these bytes at the
    given width. *)
Theorem image_embedded (ext : Externals) (document : Document) (d : pydict)
    (assets : assets_map) (w : spec_float) (src : pystr) (data : bytes)
    (kind : pystr) :
  image_src d = Some src ->
  assets !! src = Some data -> data <> [] ->
  imghdr_what data = Some (Some kind) -> kind ∈ SUPPORTED_KINDS ->
  picture_accepted data w = true ->
  add_image document (PDict d) assets w
  = Ret (append_block document (Picture data w))
  /\ node_pictures (PDict d) assets w = [Picture data w].
Proof.
  intros Hsrc Hdata Hne Hkind Hsup Hacc.
  assert (Hembed : forall doc,
            add_image doc (PDict d) assets w = Ret (append_block doc (Picture data w))).
  { intros doc. rewrite (add_image_src doc d assets w src Hsrc).
    unfold bytes in *. rewrite Hdata.
    destruct data as [|b data]; [congruence|]. simpl Nat.eqb. cbv iota.
    unfold embed_image, add_picture. rewrite Hkind. simpl.
    rewrite (bool_decide_eq_true_2 _ Hsup), Hacc. reflexivity. }
  split; [apply Hembed|]. unfold node_pictures. now rewrite Hembed.
Qed.

Lemma image_embedded_witness :
  let d := pictured "T" "resources/ok.gif" [] in
  let data := [Byte.x47; Byte.x49; Byte.x46] in
  image_src d = Some (py "resources/ok.gif")
  /\ sample_assets !! py "resources/ok.gif" = Some data
  /\ data <> []
  /\ @imghdr_what sample_externals data = Some (Some (py "gif"))
  /\ py "gif" ∈ SUPPORTED_KINDS
  /\ @picture_accepted sample_externals data float_6 = true
  /\ @add_image sample_externals new_document (PDict d) sample_assets float_6
     = Ret (append_block new_document (Picture data float_6)).
Proof.
  assert (Hin : py "gif" ∈ SUPPORTED_KINDS) by (apply (bool_decide_unpack (py "gif" ∈ SUPPORTED_KINDS)); exact I).
  split; [reflexivity|]. split; [reflexivity|]. split; [discriminate|].
  split; [reflexivity|]. split; [exact Hin|]. split; [reflexivity|].
  apply (image_embedded sample_externals new_document
           (pictured "T" "resources/ok.gif" []) sample_assets float_6
           (py "resources/ok.gif") [Byte.x47; Byte.x49; Byte.x46] (py "gif"));
    [reflexivity | reflexivity | discriminate | reflexivity | exact Hin | reflexivity].
Defined.

(** X7: whenever [add_topic] returns, every picture it has embedded
    carries non-empty bytes that are a value of the resource mapping, were
    sniffed as png, jpeg, bmp or gif and accepted by the sink, at exactly
    the width it was given. *)
Theorem pictures_from_assets (ext : Externals) (document document' : Document)
    (topic : pyval) (assets : assets_map) (level : Z) (w : spec_float) :
  add_topic document topic assets level w = Ret document' ->
  exists bs, document' = extend_body document bs
             /\ Forall (picture_from assets w) bs.
Proof. apply add_topic_provenance. Qed.

Lemma pictures_from_assets_witness :
  let topic := PDict (pictured "T" "resources/ok.gif" [leaf "k"]) in
  let document' :=
    {| core_title := [];
       body := [Heading 1 (py "T");
                Picture [Byte.x47; Byte.x49; Byte.x46] float_6;
                Paragraph (py "k") (Some LIST_BULLET) (Some 228600%Z)] |} in
  @add_topic sample_externals new_document topic sample_assets 1 float_6 = Ret document'
  /\ exists bs, document' = extend_body new_document bs
                /\ Forall (@picture_from sample_externals sample_assets float_6) bs.
Proof.
  assert (E : @add_topic sample_externals new_document
                (PDict (pictured "T" "resources/ok.gif" [leaf "k"])) sample_assets 1 float_6
              = Ret {| core_title := [];
                       body := [Heading 1 (py "T");
                                Picture [Byte.x47; Byte.x49; Byte.x46] float_6;
                                Paragraph (py "k") (Some LIST_BULLET) (Some 228600%Z)] |})
    by (vm_compute; reflexivity).
  split; [exact E|].
  exact (pictures_from_assets sample_externals _ _ _ _ _ _ E).
Defined.

(** X8: whenever [add_topic] started at level >= 1 returns, every heading
    it appended has a level between 1 and 9, the minimum of 9 and a
    nesting level from the starting one on; every paragraph is a List
    Bullet paragraph at nesting level 2 or deeper, unindented or indented
    by 228600 EMU per level below the first, or else the empty paragraph
    without style that a rejected picture leaves; it appended no field. *)
Theorem blocks_by_level (ext : Externals) (document document' : Document)
    (topic : pyval) (assets : assets_map) (level : Z) (w : spec_float) :
  (1 <= level)%Z ->
  add_topic document topic assets level w = Ret document' ->
  exists bs, document' = extend_body document bs
             /\ Forall (fun b => exists l, (level <= l)%Z /\ level_block l b) bs.
Proof. apply add_topic_levels. Qed.

Lemma blocks_by_level_witness :
  let document' :=
    {| core_title := [];
       body := [Heading 1 (py "A");
                Paragraph (py "B") (Some LIST_BULLET) (Some 228600%Z);
                Heading 2 (py "C");
                Paragraph (py "D") (Some LIST_BULLET) (Some 457200%Z)] |} in
  (1 <= 1)%Z
  /\ @add_topic sample_externals new_document sample_tree ∅ 1 float_6 = Ret document'
  /\ exists bs, document' = extend_body new_document bs
                /\ Forall (fun b => exists l, (1 <= l)%Z /\ level_block l b) bs.
Proof.
  assert (E : @add_topic sample_externals new_document sample_tree ∅ 1 float_6
              = Ret {| core_title := [];
                       body := [Heading 1 (py "A");
                                Paragraph (py "B") (Some LIST_BULLET) (Some 228600%Z);
                                Heading 2 (py "C");
                                Paragraph (py "D") (Some LIST_BULLET) (Some 457200%Z)] |})
    by (vm_compute; reflexivity).
  split; [lia|]. split; [exact E|].
  exact (blocks_by_level sample_externals new_document _ sample_tree ∅ 1 float_6
           ltac:(lia) E).
Defined.

(** ** The resource mapping *)

Lemma getinfo_in (zf : ZipFile) (name : pystr) :
  In name (namelist zf) -> getinfo zf name <> None.
Proof.
  induction zf as [|[n content] zf IH]; simpl; [tauto|].
  intros [->|Hin].
  - destruct (getinfo zf name); [discriminate|].
    destruct (decide (name = name)); [discriminate|congruence].
  - destruct (getinfo zf name); [discriminate|]. now destruct (IH Hin).
Qed.

Lemma extract_step (zf : ZipFile) (mapping : assets_map) (name : pystr) :
  (if negb (startswith name RESOURCES) then Ret mapping
   else if endswith name (py "/") then Ret mapping
   else
     let* data := zf_read zf name in
     let mapping := <[name := data]> mapping in
     Ret (<[XAP ++ name := data]> mapping))
  = if resource_name name
    then let* data := zf_read zf name in
         Ret (<[XAP ++ name := data]> (<[name := data]> mapping))
    else Ret mapping.
Proof.
  unfold resource_name.
  destruct (startswith name RESOURCES), (endswith name (py "/")); reflexivity.
Qed.

Lemma extract_fold_keys (zf : ZipFile) (names : list pystr) :
  forall (acc m : assets_map),
    foldM (fun (mapping : assets_map) name =>
             if negb (startswith name RESOURCES) then Ret mapping
             else if endswith name (py "/") then Ret mapping
             else
               let* data := zf_read zf name in
               let mapping := <[name := data]> mapping in
               Ret (<[XAP ++ name := data]> mapping))
          names acc = Ret m ->
    forall key data,
      m !! key = Some data ->
      acc !! key = Some data
      \/ exists p, In p names /\ resource_name p = true
                   /\ (key = p \/ key = XAP ++ p) /\ zf_read zf p = Ret data.
Proof.
  induction names as [|name names IH]; intros acc m E key data Hkey; simpl in E.
  - injection E as <-. now left.
  - apply bind_Ret_inv in E as (acc1 & E1 & E).
    destruct (IH acc1 m E key data Hkey) as [Hacc1|(p & Hin & Hres & Hk & Hread)];
      [|right; exists p; repeat split; auto; now right].
    rewrite extract_step in E1.
    destruct (resource_name name) eqn:Hres; [|injection E1 as <-; now left].
    apply bind_Ret_inv in E1 as (d & Hread & [= <-]).
    destruct (decide (XAP ++ name = key)) as [<-|Hne1].
    { rewrite lookup_insert_eq in Hacc1. injection Hacc1 as <-.
      right. exists name. repeat split; auto; now left. }
    rewrite lookup_insert_ne in Hacc1 by exact Hne1.
    destruct (decide (name = key)) as [<-|Hne2].
    { rewrite lookup_insert_eq in Hacc1. injection Hacc1 as <-.
      right. exists name. repeat split; auto; now left. }
    rewrite lookup_insert_ne in Hacc1 by exact Hne2. now left.
Qed.

Lemma resource_name_starts (name : pystr) :
  resource_name name = true -> startswith name RESOURCES = true.
Proof. unfold resource_name. intros H. now apply andb_true_iff in H. Qed.

Lemma resource_name_file (name : pystr) :
  resource_name name = true -> endswith name (py "/") = false.
Proof.
  unfold resource_name. intros H. apply andb_true_iff in H as (_ & H).
  now apply negb_true_iff in H.
Qed.

(** Under ["resources/"] the aliased key and the raw key hold the same. *)
Lemma extract_alias_same (zf : ZipFile) (mapping : assets_map) (p : pystr) :
  extract_resources zf = Ret mapping ->
  startswith p RESOURCES = true ->
  mapping !! (XAP ++ p) = mapping !! p.
Proof.
  intros E Hstart.
  assert (Hkeys : forall key data, mapping !! key = Some data ->
            exists q, In q (namelist zf) /\ resource_name q = true
                      /\ (key = q \/ key = XAP ++ q) /\ zf_read zf q = Ret data).
  { intros key data Hk.
    destruct (extract_fold_keys zf (namelist zf) ∅ mapping E key data Hk) as [Hempty|H];
      [rewrite lookup_empty in Hempty; discriminate | exact H]. }
  assert (Hboth : forall q, In q (namelist zf) -> resource_name q = true ->
            exists data, zf_read zf q = Ret data
                         /\ mapping !! q = Some data /\ mapping !! (XAP ++ q) = Some data).
  { intros q Hin Hq.
    apply (extract_fold zf (namelist zf) ∅ mapping E q
             (resource_name_starts q Hq) (resource_name_file q Hq)). now left. }
  destruct (mapping !! p) as [data|] eqn:Hp.
  - destruct (Hkeys p data Hp) as (q & Hin & Hq & [->|Hk] & Hread).
    + destruct (Hboth q Hin Hq) as (data' & Hread' & _ & Halias).
      rewrite Hread in Hread'. injection Hread' as <-. exact Halias.
    + now apply xap_not_resource in Hk.
  - destruct (mapping !! (XAP ++ p)) as [data|] eqn:Hx; [|reflexivity].
    destruct (Hkeys (XAP ++ p) data Hx) as (q & Hin & Hq & [Hk|Hk] & Hread).
    + symmetry in Hk. now apply xap_not_resource in Hk; [|apply resource_name_starts].
    + apply app_inv_head in Hk. subst q.
      destruct (Hboth p Hin Hq) as (data' & _ & Hraw & _). congruence.
Qed.

(** X9: with the mapping [extract_resources] built, an image addressed
    by a path under ["resources/"] and the same image addressed with the
    ["xap:"] prefix are treated alike: the image part gives the same
    result for both references. *)
Theorem image_by_either_address (ext : Externals) (zf : ZipFile)
    (mapping : assets_map) (p : pystr) (d_raw d_alias : pydict)
    (document : Document) (w : spec_float) :
  extract_resources zf = Ret mapping ->
  startswith p RESOURCES = true ->
  image_src d_raw = Some p ->
  image_src d_alias = Some (XAP ++ p) ->
  add_image document (PDict d_alias) mapping w
  = add_image document (PDict d_raw) mapping w.
Proof.
  intros E Hstart Hraw Halias.
  rewrite (add_image_src document d_raw mapping w p Hraw).
  rewrite (add_image_src document d_alias mapping w (XAP ++ p) Halias).
  pose proof (extract_alias_same zf mapping p E Hstart) as Hsame.
  unfold pystr, bytes in *. now rewrite Hsame.
Qed.

Lemma image_by_either_address_witness :
  let m : assets_map :=
    <[py "xap:resources/a.png" := [Byte.x89; Byte.x50; Byte.x4e; Byte.x47]]>
    (<[py "resources/a.png" := [Byte.x89; Byte.x50; Byte.x4e; Byte.x47]]> ∅) in
  extract_resources sample_zip = Ret m
  /\ startswith (py "resources/a.png") RESOURCES = true
  /\ image_src (pictured "T" "resources/a.png" []) = Some (py "resources/a.png")
  /\ image_src (pictured "T" "xap:resources/a.png" []) = Some (XAP ++ py "resources/a.png")
  /\ @add_image sample_externals new_document
       (PDict (pictured "T" "xap:resources/a.png" [])) m float_6
     = @add_image sample_externals new_document
         (PDict (pictured "T" "resources/a.png" [])) m float_6.
Proof.
  intros m. split; [reflexivity|]. split; [reflexivity|]. split; [reflexivity|].
  split; [reflexivity|].
  apply (image_by_either_address sample_externals sample_zip m (py "resources/a.png"));
    reflexivity.
Defined.

(** X10: the mapping [extract_resources] builds has no other keys than
    the paths of the non-directory entries under ["resources/"] and those
    paths behind ["xap:"], each bound to the bytes of its archive member. *)
Theorem resource_keys_only (zf : ZipFile) (mapping : assets_map) (key : pystr)
    (data : bytes) :
  extract_resources zf = Ret mapping ->
  mapping !! key = Some data ->
  exists p, In p (namelist zf) /\ resource_name p = true
            /\ (key = p \/ key = XAP ++ p) /\ zf_read zf p = Ret data.
Proof.
  intros E Hkey.
  destruct (extract_fold_keys zf (namelist zf) ∅ mapping E key data Hkey) as [Hempty|H];
    [rewrite lookup_empty in Hempty; discriminate | exact H].
Qed.

Lemma resource_keys_only_witness :
  let m : assets_map :=
    <[py "xap:resources/a.png" := [Byte.x89; Byte.x50; Byte.x4e; Byte.x47]]>
    (<[py "resources/a.png" := [Byte.x89; Byte.x50; Byte.x4e; Byte.x47]]> ∅) in
  extract_resources sample_zip = Ret m
  /\ m !! py "xap:resources/a.png" = Some [Byte.x89; Byte.x50; Byte.x4e; Byte.x47]
  /\ exists p, In p (namelist sample_zip) /\ resource_name p = true
               /\ (py "xap:resources/a.png" = p \/ py "xap:resources/a.png" = XAP ++ p)
               /\ zf_read sample_zip p = Ret [Byte.x89; Byte.x50; Byte.x4e; Byte.x47].
Proof.
  intros m. split; [reflexivity|]. split; [reflexivity|].
  apply (resource_keys_only sample_zip m (py "xap:resources/a.png")
           [Byte.x89; Byte.x50; Byte.x4e; Byte.x47]); reflexivity.
Defined.

Lemma extract_resources_entries (zf : ZipFile) :
  extract_resources zf = foldM (extract_entry zf) (namelist zf) ∅.
Proof.
  unfold extract_resources. apply foldM_ext_Forall.
  apply List.Forall_forall. intros name _ acc. apply extract_step.
Qed.

Lemma finished_extract_resources (zf : ZipFile) : finished (extract_resources zf).
Proof.
  rewrite extract_resources_entries. apply finished_foldM.
  apply List.Forall_forall. intros name _ acc. unfold extract_entry, zf_read.
  destruct (resource_name name); [|discriminate].
  destruct (getinfo zf name) as [[e|data]|]; discriminate.
Qed.

(** A member that is listed and is not unreadable is read. *)
Lemma readable_entry (zf : ZipFile) (name : pystr) (mapping : assets_map) :
  In name (namelist zf) -> ~ unreadable zf name ->
  exists m, extract_entry zf mapping name = Ret m.
Proof.
  intros Hin Hok. unfold extract_entry, zf_read.
  destruct (resource_name name) eqn:Hres; [|eauto].
  destruct (getinfo zf name) as [[e|data]|] eqn:Hinfo; simpl.
  - destruct Hok. unfold unreadable. eauto.
  - eauto.
  - now destruct (getinfo_in zf name Hin).
Qed.

Lemma unreadable_entry (zf : ZipFile) (name : pystr) (mapping : assets_map) (e : exn) :
  resource_name name = true -> getinfo zf name = Some (inl e) ->
  extract_entry zf mapping name = Raise e.
Proof. intros Hres Hinfo. unfold extract_entry, zf_read. now rewrite Hres, Hinfo. Qed.

(** The loop gets through the names before the first unreadable one. *)
Lemma extract_readable_prefix (zf : ZipFile) (names : list pystr) :
  (forall n, In n names -> In n (namelist zf) /\ ~ unreadable zf n) ->
  forall acc, exists m, foldM (extract_entry zf) names acc = Ret m.
Proof.
  induction names as [|name names IH]; intros Hok acc; simpl; [eauto|].
  destruct (Hok name (or_introl eq_refl)) as (Hin & Hread).
  destruct (readable_entry zf name acc Hin Hread) as (m & ->). simpl.
  apply IH. intros n Hn. apply Hok. now right.
Qed.

(** What the loop raises is the error of the first unreadable resource. *)
Lemma extract_raises_first (zf : ZipFile) (names : list pystr) (e : exn) :
  (forall n, In n names -> In n (namelist zf)) ->
  forall acc,
    foldM (extract_entry zf) names acc = Raise e ->
    exists before name after,
      names = before ++ name :: after
      /\ (forall n, In n before -> ~ unreadable zf n)
      /\ resource_name name = true /\ getinfo zf name = Some (inl e).
Proof.
  induction names as [|name names IH]; intros Hin acc E; simpl in E; [discriminate|].
  destruct (extract_entry zf acc name) as [m|e'|] eqn:Estep; simpl in E.
  - destruct (IH (fun n Hn => Hin n (or_intror Hn)) m E)
      as (before & bad & after & -> & Hbefore & Hres & Hinfo).
    exists (name :: before), bad, after. split; [reflexivity|].
    split; [|now split].
    intros n [Heq|Hn]; [subst n|now apply Hbefore].
    intros (_ & Hres' & e' & Hinfo').
    now rewrite (unreadable_entry zf name acc e' Hres' Hinfo') in Estep.
  - injection E as <-. exists [], name, names. split; [reflexivity|].
    split; [intros n []|].
    unfold extract_entry, zf_read in Estep.
    destruct (resource_name name); [|discriminate]. split; [reflexivity|].
    destruct (getinfo zf name) as [[e0|data]|] eqn:Hinfo; simpl in Estep;
      try discriminate.
    + now injection Estep as ->.
    + now destruct (getinfo_in zf name (Hin name (or_introl eq_refl))).
  - discriminate.
Qed.

Lemma extract_resources_raises (zf : ZipFile) (e : exn) :
  extract_resources zf = Raise e
  <-> exists before name after,
        namelist zf = before ++ name :: after
        /\ (forall n, In n before -> ~ unreadable zf n)
        /\ resource_name name = true /\ getinfo zf name = Some (inl e).
Proof.
  rewrite extract_resources_entries. split.
  - apply extract_raises_first. auto.
  - intros (before & name & after & Hnames & Hbefore & Hres & Hinfo).
    rewrite Hnames, foldM_app.
    destruct (extract_readable_prefix zf before) with (acc := (∅ : assets_map))
      as (m & ->).
    { intros n Hn. split; [|now apply Hbefore].
      rewrite Hnames. apply in_or_app. now left. }
    simpl. now rewrite (unreadable_entry zf name m e Hres Hinfo).
Qed.

Lemma extract_resources_returns (zf : ZipFile) :
  (exists mapping, extract_resources zf = Ret mapping)
  <-> ~ exists name, unreadable zf name.
Proof.
  split.
  - intros (mapping & E) (name & Hin & Hres & e & Hinfo).
    destruct (extract_fold zf (namelist zf) ∅ mapping E name
                (resource_name_starts name Hres) (resource_name_file name Hres))
      as (data & Hread & _); [now left|].
    unfold zf_read in Hread. rewrite Hinfo in Hread. discriminate.
  - intros Hnone. rewrite extract_resources_entries.
    apply extract_readable_prefix. intros n Hn. split; [exact Hn|].
    intros Hbad. apply Hnone. eauto.
Qed.

(** X11: [extract_resources] returns a mapping exactly when every entry
    it takes can be read; when one cannot, it raises what reading the
    first such entry of the name list raises, whatever comes after. *)
Theorem extract_resources_outcome (zf : ZipFile) :
  ((exists mapping, extract_resources zf = Ret mapping)
   <-> ~ exists name, unreadable zf name)
  /\ (forall e,
        extract_resources zf = Raise e
        <-> exists before name after,
              namelist zf = before ++ name :: after
              /\ (forall n, In n before -> ~ unreadable zf n)
              /\ resource_name name = true /\ getinfo zf name = Some (inl e)).
Proof.
  split; [apply extract_resources_returns | apply extract_resources_raises].
Qed.

Example broken_zip_outcome :
  extract_resources broken_zip = Raise NotImplementedError
  /\ extract_resources
       [(py "resources/a", inl RuntimeError); (py "resources/b", inl BadZipFile)]
     = Raise RuntimeError
  /\ extract_resources
       [(py "resources/a", inl RuntimeError); (py "resources/a", inr [Byte.x00])]
     = Ret (<[py "xap:resources/a" := [Byte.x00]]>
              (<[py "resources/a" := [Byte.x00]]> ∅)).
Proof. repeat split. Qed.

Section ReaderResults.
Context {ext : Externals}.

Lemma load_unreadable (zf : ZipFile) :
  (exists name, unreadable zf name) ->
  load_from_content_json (Zip zf) = Ret NO_RESULT.
Proof.
  intros Hbad. unfold load_from_content_json. simpl.
  destruct (List.filter _ (namelist zf)) as [|first rest]; [reflexivity|].
  destruct (extract_resources zf) as [m|e|] eqn:E; simpl; [|reflexivity|].
  - destruct (proj1 (extract_resources_returns zf)); eauto.
  - now destruct (finished_extract_resources zf).
Qed.

Lemma load_result_mapping (path : source_file) (root : pyval) (assets : assets_map) :
  load_from_content_json path = Ret (root, assets) ->
  assets = ∅ \/ exists zf, path = Zip zf /\ extract_resources zf = Ret assets.
Proof.
  unfold load_from_content_json. intros E.
  destruct path as [|zf]; simpl in E; [injection E as _ <-; now left|].
  destruct (List.filter _ (namelist zf)) as [|first rest];
    [injection E as _ <-; now left|].
  destruct (extract_resources zf) as [m| |] eqn:Em; simpl in E;
    try (injection E as _ <-; now left); [|discriminate].
  destruct (let* data := zf_read zf first in _) as [[r a]| |] eqn:Einner; simpl in E;
    try (injection E as _ <-; now left); [|discriminate].
  injection E as -> ->. right. exists zf. split; [reflexivity|].
  apply bind_Ret_inv in Einner as (data & _ & Einner).
  apply bind_Ret_inv in Einner as (doc & _ & Einner).
  apply bind_Ret_inv in Einner as (sheet & _ & Einner).
  apply bind_Ret_inv in Einner as (r' & _ & Einner).
  now injection Einner as _ ->.
Qed.

End ReaderResults.

(** X12: one resource that cannot be read makes the reader give up the
    structured content altogether: [load_from_content_json] returns
    [(None, {})], whatever [content.json] holds. *)
Theorem unreadable_resource_no_result (ext : Externals) (zf : ZipFile) :
  (exists name, unreadable zf name) ->
  load_from_content_json (Zip zf) = Ret NO_RESULT.
Proof. apply load_unreadable. Qed.

Lemma unreadable_resource_no_result_witness :
  (exists name, unreadable broken_zip name)
  /\ @load_from_content_json sample_externals (Zip broken_zip) = Ret NO_RESULT.
Proof.
  assert (H : exists name, unreadable broken_zip name).
  { exists (py "resources/a.png"). split; [right; left; reflexivity|].
    split; [reflexivity|]. now exists NotImplementedError. }
  split; [exact H|].
  exact (unreadable_resource_no_result sample_externals broken_zip H).
Defined.

(** X13: in every mapping [load_from_content_json] returns, a path
    under ["resources/"] and the same path behind ["xap:"] hold the same:
    both the same bytes, or both nothing. *)
Theorem loaded_mapping_aliased (ext : Externals) (path : source_file) (root : pyval)
    (assets : assets_map) (p : pystr) :
  load_from_content_json path = Ret (root, assets) ->
  startswith p RESOURCES = true ->
  assets !! (XAP ++ p) = assets !! p.
Proof.
  intros E Hstart.
  destruct (load_result_mapping path root assets E) as [->|(zf & _ & Em)].
  - now rewrite !lookup_empty.
  - now apply (extract_alias_same zf).
Qed.

Lemma loaded_mapping_aliased_witness :
  let m : assets_map :=
    <[py "xap:resources/a.png" := [Byte.x89; Byte.x50; Byte.x4e; Byte.x47]]>
    (<[py "resources/a.png" := [Byte.x89; Byte.x50; Byte.x4e; Byte.x47]]> ∅) in
  let root := PDict (pictured "T" "xap:resources/a.png" [leaf "k"]) in
  @load_from_content_json reading_externals (Zip sample_zip) = Ret (root, m)
  /\ startswith (py "resources/a.png") RESOURCES = true
  /\ m !! (XAP ++ py "resources/a.png") = m !! py "resources/a.png".
Proof.
  intros m root. split; [reflexivity|]. split; [reflexivity|].
  apply (loaded_mapping_aliased reading_externals (Zip sample_zip) root m
           (py "resources/a.png")); reflexivity.
Defined.

Example sample_args_path :
  @normalize_source plain_paths (arg_source sample_args) = py "C:/maps/plan.xmind".
Proof. vm_compute. reflexivity. Qed.

(** ** The document [main] builds *)

Lemma float_max_floor (w : spec_float) :
  SFltb (float_max w float_0_1) float_0_1 = false.
Proof.
  unfold float_max. destruct (SFltb w float_0_1) eqn:E; [reflexivity|exact E].
Qed.

Section Built.
Context {ext : Externals}.

Lemma build_document_inv (no_toc : bool) (w : spec_float) (root_topic : pyval)
    (assets : assets_map) (document : Document) :
  build_document no_toc w root_topic assets = Ret document ->
  exists r bs,
    root_topic = PDict r
    /\ core_title document
       = py_str (default (PStr (py "XMind")) (dict_get r (py "title")))
    /\ core_title_accepted (core_title document) = true
    /\ body document = (if no_toc then [] else [FieldParagraph TOC_INSTR]) ++ bs
    /\ add_topic new_document root_topic assets 1 (float_max w float_0_1)
       = Ret (extend_body new_document bs).
Proof.
  unfold build_document. intros E.
  apply bind_Ret_inv in E as (t & Ht & E).
  apply bind_Ret_inv in E as (d0 & Hd0 & E).
  destruct root_topic as [| | | | | |r]; try discriminate.
  injection Ht as <-. exists r.
  unfold set_core_title in Hd0.
  destruct (core_title_accepted _) eqn:Eaccept; [|discriminate].
  injection Hd0 as <-.
  rewrite add_topic_rebase in E.
  destruct (add_topic new_document (PDict r) assets 1 _) as [d| |] eqn:Ed;
    try discriminate.
  injection E as <-. exists (body d).
  split; [reflexivity|]. split; [now destruct no_toc|].
  split; [now destruct no_toc|]. split; [now destruct no_toc|].
  destruct (add_topic_appends assets _ _ _ _ _ _ (Nat.le_refl _) Ed) as (bs & -> & _).
  reflexivity.
Qed.

Lemma add_topic_first_block (topic : pyval) (assets : assets_map) (w : spec_float)
    (bs : list block) :
  add_topic new_document topic assets 1 w = Ret (extend_body new_document bs) ->
  exists title rest,
    topic_title topic = Ret title
    /\ bs = Heading 1 title :: rest
    /\ Forall projected_block rest.
Proof.
  intros E.
  destruct (add_topic_appends assets w _ _ _ _ _ (Nat.le_refl _) E) as (bs' & Hbs & Hproj).
  assert (bs' = bs) as -> by (injection Hbs as Hbs; congruence).
  apply add_topic_Ret_inv in E as (_ & E).
  apply bind_Ret_inv in E as (title & Htitle & E).
  apply bind_Ret_inv in E as (children & _ & E).
  apply bind_Ret_inv in E as (d1 & Hd1 & E).
  apply bind_Ret_inv in E as (d2 & Hd2 & E).
  destruct (text_accepted title) eqn:Eaccept;
    [|rewrite add_text_block_refused in Hd1 by exact Eaccept; discriminate].
  rewrite add_text_block_rule in Hd1 by (lia || assumption). injection Hd1 as <-.
  apply add_image_pictures in Hd2 as (pics & -> & _).
  apply (foldM_appends_such (fun _ => True)) in E as (rest & E & _).
  - exists title, (pics ++ rest). split; [exact Htitle|].
    rewrite append_extend, !extend_extend in E. injection E as E.
    unfold emission_rule in E. simpl in E. subst bs.
    split; [reflexivity|]. now inversion Hproj.
  - apply List.Forall_forall. intros c _ document0 document0' E0.
    destruct (add_topic_appends assets w _ _ _ _ _ (Nat.le_refl _) E0) as (bs0 & -> & _).
    exists bs0. split; [reflexivity|]. apply List.Forall_forall. auto.
Qed.

End Built.

(** X14: a document that [main] builds has the raw title of the root as
    its core title, ["XMind"] when the root has no title key, a title the
    setter of the core properties took; its body is the field paragraph
    of the table of contents, unless suppressed, then a level-1 heading
    with the sanitized title of the root, then blocks none of which is a
    field: headings and bulleted paragraphs with a text that is not
    empty, pictures, and the empty paragraphs of rejected pictures. *)
Theorem built_document_shape (ext : Externals) (no_toc : bool) (w : spec_float)
    (root_topic : pyval) (assets : assets_map) (document : Document) :
  build_document no_toc w root_topic assets = Ret document ->
  exists r title rest,
    root_topic = PDict r
    /\ core_title document
       = py_str (default (PStr (py "XMind")) (dict_get r (py "title")))
    /\ core_title_accepted (core_title document) = true
    /\ topic_title root_topic = Ret title
    /\ body document
       = (if no_toc then [] else [FieldParagraph TOC_INSTR]) ++ Heading 1 title :: rest
    /\ Forall projected_block rest.
Proof.
  intros E.
  apply build_document_inv in E as (r & bs & -> & Hcore & Haccept & Hbody & Hrun).
  apply add_topic_first_block in Hrun as (title & rest & Htitle & -> & Hrest).
  exists r, title, rest. auto 7.
Qed.

Lemma built_document_shape_witness :
  let document :=
    {| core_title := py "T";
       body := [FieldParagraph TOC_INSTR; Heading 1 (py "T"); Paragraph [] None None;
                Paragraph (py "k") (Some LIST_BULLET) (Some 228600%Z)] |} in
  let root := PDict (pictured "T" "resources/tiny.gif" [leaf "k"]) in
  @build_document sample_externals false float_6 root sample_assets = Ret document
  /\ exists r title rest,
       root = PDict r
       /\ core_title document
          = @py_str sample_externals
              (default (PStr (py "XMind")) (dict_get r (py "title")))
       /\ @core_title_accepted sample_externals (core_title document) = true
       /\ @topic_title sample_externals root = Ret title
       /\ body document
          = [FieldParagraph TOC_INSTR] ++ Heading 1 title :: rest
       /\ Forall projected_block rest.
Proof.
  assert (E : @build_document sample_externals false float_6
                (PDict (pictured "T" "resources/tiny.gif" [leaf "k"])) sample_assets
              = Ret {| core_title := py "T";
                       body := [FieldParagraph TOC_INSTR; Heading 1 (py "T");
                                Paragraph [] None None;
                                Paragraph (py "k") (Some LIST_BULLET)
                                          (Some 228600%Z)] |})
    by (vm_compute; reflexivity).
  split; [exact E|].
  exact (built_document_shape sample_externals false float_6 _ sample_assets _ E).
Defined.

(** X15: every picture of a document that [main] builds carries bytes
    of the resource mapping and the width [max(img_width, 0.1)], which is
    never below 0.1. *)
Theorem built_document_pictures (ext : Externals) (no_toc : bool) (w : spec_float)
    (root_topic : pyval) (assets : assets_map) (document : Document) :
  build_document no_toc w root_topic assets = Ret document ->
  Forall (picture_from assets (float_max w float_0_1)) (body document)
  /\ SFltb (float_max w float_0_1) float_0_1 = false.
Proof.
  intros E. split; [|apply float_max_floor].
  apply build_document_inv in E as (r & bs & -> & _ & _ & -> & Hrun).
  apply add_topic_provenance in Hrun as (bs' & Hbs & Hfrom).
  assert (bs' = bs) as -> by (injection Hbs as Hbs; congruence).
  apply Forall_app. split; [|exact Hfrom]. destruct no_toc; repeat constructor.
Qed.

Lemma built_document_pictures_witness :
  let tiny := S754_finite false 4503599627370496 (-62) in
  let document :=
    {| core_title := py "T";
       body := [Heading 1 (py "T");
                Picture [Byte.x47; Byte.x49; Byte.x46] float_0_1] |} in
  @build_document sample_externals true tiny
     (PDict (pictured "T" "resources/ok.gif" [])) sample_assets = Ret document
  /\ Forall (@picture_from sample_externals sample_assets float_0_1) (body document).
Proof.
  assert (E : @build_document sample_externals true
                (S754_finite false 4503599627370496 (-62))
                (PDict (pictured "T" "resources/ok.gif" [])) sample_assets
              = Ret {| core_title := py "T";
                       body := [Heading 1 (py "T");
                                Picture [Byte.x47; Byte.x49; Byte.x46] float_0_1] |})
    by (vm_compute; reflexivity).
  split; [exact E|].
  exact (proj1 (built_document_pictures sample_externals true _ _ _ _ E)).
Defined.

(** ** [main] and its two loaders *)

Section Loaders.
Context {ext : Externals}.


Lemma load_from_xmind_lib_mapping {lib : LegacyLibrary} (file : source_file)
    (root : pyval) (assets : assets_map) :
  load_from_xmind_lib file = Ret (root, assets) -> assets = ∅.
Proof.
  unfold load_from_xmind_lib. destruct xmind as [sheet_data|].
  - intros E. apply bind_Ret_inv in E as (sheet & _ & E).
    apply bind_Ret_inv in E as (topic & _ & E). now injection E as _ <-.
  - now intros [= _ <-].
Qed.

End Loaders.



(** X17: a document that [main] saves after the structured content gave
    no root comes from the legacy package and holds no picture, whatever
    image references its topics carry and whatever resources the archive
    has. *)
Theorem legacy_document_no_pictures (ext : Externals) (lib : LegacyLibrary)
    (paths : PathLibrary)
    (files : pystr -> option source_file) (args : Args) (file : source_file)
    (assets0 : assets_map) (document : Document) :
  files (normalize_source (arg_source args)) = Some file ->
  load_from_content_json file = Ret (PNone, assets0) ->
  main files args = Ret (Saved document) ->
  Forall (fun b => is_picture b = false) (body document).
Proof.
  intros Hfile Hload. unfold main, parse_source. rewrite Hfile, Hload. simpl.
  intros E. apply bind_Ret_inv in E as ([root assets] & Hlegacy & E). simpl in E.
  apply load_from_xmind_lib_mapping in Hlegacy as ->.
  destruct (is_none root); [discriminate|].
  apply bind_Ret_inv in E as (d & Hbuild & [= <-]).
  apply build_document_inv in Hbuild as (r & bs & -> & _ & _ & -> & Hrun).
  apply add_topic_no_assets in Hrun as (bs' & Hbs & Htext).
  assert (bs' = bs) as -> by (injection Hbs as Hbs; congruence).
  apply Forall_app. split; [destruct (arg_no_toc args); repeat constructor|].
  eapply Forall_impl; [exact Htext|]. intros b Hb; destruct b; try reflexivity.
  discriminate.
Qed.

Lemma legacy_document_no_pictures_witness :
  let files : pystr -> option source_file := fun _ => Some (Zip legacy_zip) in
  let document :=
    {| core_title := py "T";
       body := [FieldParagraph TOC_INSTR; Heading 1 (py "T");
                Paragraph (py "k") (Some LIST_BULLET) (Some 228600%Z)] |} in
  files (@normalize_source plain_paths (arg_source sample_args)) = Some (Zip legacy_zip)
  /\ @load_from_content_json sample_externals (Zip legacy_zip) = Ret (PNone, ∅)
  /\ @main sample_externals sample_legacy plain_paths files sample_args = Ret (Saved document)
  /\ Forall (fun b => is_picture b = false) (body document).
Proof.
  intros files document.
  assert (E : @main sample_externals sample_legacy plain_paths files sample_args
              = Ret (Saved document)) by (vm_compute; reflexivity).
  split; [reflexivity|]. split; [reflexivity|]. split; [exact E|].
  exact (legacy_document_no_pictures sample_externals sample_legacy plain_paths files sample_args
           (Zip legacy_zip) ∅ document eq_refl eq_refl E).
Defined.



(** The structured path end to end: the picture addressed by its aliased
    path is embedded after the heading of the root. *)
Example main_structured :
  @main reading_externals failing_legacy plain_paths (fun _ => Some (Zip sample_zip)) sample_args
  = Ret (Saved {| core_title := py "T";
                  body := [FieldParagraph TOC_INSTR;
                           Heading 1 (py "T");
                           Picture [Byte.x89; Byte.x50; Byte.x4e; Byte.x47] float_6;
                           Paragraph (py "k") (Some LIST_BULLET) (Some 228600%Z)] |}).
Proof. vm_compute. reflexivity. Qed.

(** ** The source path *)

Lemma lstrip_chars_head (chars s : pystr) :
  lstrip_chars chars s = []
  \/ exists c r, lstrip_chars chars s = c :: r /\ c ∉ chars.
Proof.
  induction s as [|c s IH]; simpl; [now left|].
  destruct (bool_decide (c ∈ chars)) eqn:E; [exact IH|].
  right. exists c, s. split; [reflexivity|]. now apply bool_decide_eq_false in E.
Qed.

Lemma lstrip_chars_snoc (chars s : pystr) (c : N) :
  c ∉ chars -> exists u, lstrip_chars chars (s ++ [c]) = u ++ [c].
Proof.
  intros Hc. induction s as [|x s IH]; simpl.
  - rewrite bool_decide_eq_false_2 by exact Hc. now exists [].
  - destruct (bool_decide (x ∈ chars)); [exact IH|]. now exists (x :: s).
Qed.

Lemma lstrip_chars_id (chars s : pystr) :
  (forall c, head s = Some c -> c ∉ chars) -> lstrip_chars chars s = s.
Proof.
  destruct s as [|c s]; simpl; [reflexivity|]. intros H.
  now rewrite bool_decide_eq_false_2 by (apply H; reflexivity).
Qed.

Lemma head_rev (s : pystr) : head (rev s) = last s.
Proof.
  induction s as [|x s _] using rev_ind; [reflexivity|].
  rewrite rev_app_distr, last_snoc. reflexivity.
Qed.

Lemma strip_chars_ends (chars s : pystr) (c : N) :
  head (strip_chars chars s) = Some c \/ last (strip_chars chars s) = Some c ->
  c ∉ chars.
Proof.
  unfold strip_chars. intros [Hhead|Hlast].
  - destruct (lstrip_chars_head chars s) as [E|(x & r & E & Hx)]; rewrite E in Hhead;
      [discriminate|].
    simpl rev in Hhead.
    destruct (lstrip_chars_snoc chars (rev r) x Hx) as (u & Hu). rewrite Hu in Hhead.
    rewrite rev_app_distr in Hhead. simpl in Hhead. now injection Hhead as <-.
  - destruct (lstrip_chars_head chars (rev (lstrip_chars chars s)))
      as [E|(x & r & E & Hx)]; rewrite E in Hlast; [discriminate|].
    simpl rev in Hlast. rewrite last_snoc in Hlast. now injection Hlast as <-.
Qed.

Lemma strip_chars_id (chars s : pystr) :
  (forall c, head s = Some c -> c ∉ chars) ->
  (forall c, last s = Some c -> c ∉ chars) ->
  strip_chars chars s = s.
Proof.
  intros Hhead Hlast. unfold strip_chars.
  rewrite (lstrip_chars_id chars s Hhead).
  rewrite lstrip_chars_id; [apply rev_involutive|].
  intros c Hc. rewrite head_rev in Hc. now apply Hlast.
Qed.

Lemma replace_char_ends (old new : N) (s : pystr) (c : N) :
  head (replace_char old new s) = Some c \/ last (replace_char old new s) = Some c ->
  exists c0, (head s = Some c0 \/ last s = Some c0)
             /\ c = if (c0 =? old)%N then new else c0.
Proof.
  unfold replace_char. intros [Hhead|Hlast].
  - destruct s as [|x s]; [discriminate|]. injection Hhead as <-. exists x. auto.
  - induction s as [|x s _] using rev_ind; [discriminate|].
    rewrite List.map_app in Hlast. simpl in Hlast. rewrite last_snoc in Hlast.
    injection Hlast as <-. exists x. split; [right; apply last_snoc|reflexivity].
Qed.

Lemma replace_char_id (old new : N) (s : pystr) :
  Forall (fun c => c <> old) s -> replace_char old new s = s.
Proof.
  unfold replace_char. induction 1 as [|c s Hc _ IH]; simpl; [reflexivity|].
  apply N.eqb_neq in Hc. now rewrite Hc, IH.
Qed.

(** X19: the string of the source argument that [main] hands to [Path]
    holds no backslash and neither begins nor ends with a single quote; a
    source without backslashes that neither begins nor ends with a quote
    of either kind is handed over as it is. *)
Theorem source_string_clean (source : pystr) :
  Forall (fun c => c <> BACKSLASH) (source_string source)
  /\ head (source_string source) <> Some SINGLE_QUOTE
  /\ last (source_string source) <> Some SINGLE_QUOTE
  /\ (Forall (fun c => c <> BACKSLASH) source ->
      (forall c, head source = Some c \/ last source = Some c ->
                 c <> DOUBLE_QUOTE /\ c <> SINGLE_QUOTE) ->
      source_string source = source).
Proof.
  unfold source_string.
  set (stripped := strip_chars [SINGLE_QUOTE] (strip_chars [DOUBLE_QUOTE] source)).
  assert (Hends : forall c,
            head (replace_char BACKSLASH SLASH stripped) = Some c
            \/ last (replace_char BACKSLASH SLASH stripped) = Some c ->
            c <> SINGLE_QUOTE).
  { intros c Hc. apply replace_char_ends in Hc as (c0 & Hc0 & ->).
    apply strip_chars_ends in Hc0. rewrite list_elem_of_singleton in Hc0.
    destruct (c0 =? BACKSLASH)%N; [discriminate|exact Hc0]. }
  split; [|split; [|split]].
  - unfold replace_char. apply List.Forall_forall. intros c Hin.
    apply in_map_iff in Hin as (x & <- & _).
    destruct (x =? BACKSLASH)%N eqn:E; [discriminate|]. now apply N.eqb_neq in E.
  - intros H. now apply (Hends SINGLE_QUOTE (or_introl H)).
  - intros H. now apply (Hends SINGLE_QUOTE (or_intror H)).
  - intros Hfree Hquotes. subst stripped.
    rewrite (strip_chars_id [DOUBLE_QUOTE] source), (strip_chars_id [SINGLE_QUOTE] source);
      try (intros c Hc; rewrite list_elem_of_singleton; apply Hquotes; auto).
    now apply replace_char_id.
Qed.

Lemma source_string_clean_witness :
  let source := py "maps/plan's.xmind" in
  Forall (fun c => c <> BACKSLASH) source
  /\ (forall c, head source = Some c \/ last source = Some c ->
                c <> DOUBLE_QUOTE /\ c <> SINGLE_QUOTE)
  /\ source_string source = source.
Proof.
  intros source.
  assert (Hfree : Forall (fun c => c <> BACKSLASH) source)
    by (repeat constructor; discriminate).
  assert (Hends : forall c, head source = Some c \/ last source = Some c ->
                            c <> DOUBLE_QUOTE /\ c <> SINGLE_QUOTE)
    by (intros c [[= <-]|[= <-]]; split; discriminate).
  split; [exact Hfree|]. split; [exact Hends|].
  exact (proj2 (proj2 (proj2 (source_string_clean source))) Hfree Hends).
Defined.
